(** * Addon versioning: a shallow embedding of [versioning.py]

    The development follows the Python module top to bottom: the two
    regular expressions, the [ReleaseState] enumeration, the [Version]
    dataclass with its parsers, renderers, ordering and [bump].

    Modelling choices.
    - Integers are non-negative Python integers, modelled as [N].
    - Exceptions are values of type [exn]; a computation that can raise
      returns a [result].
    - A Python [str] is a [string]; for code points below 256 the class
      [\d] is exactly the ASCII digits.
    - The dataclass checks no types, so a field of a [Version] holds
      whatever integer object was put there: a plain [int] or a member
      of [ReleaseState] (an [IntEnum] member is an [int] too).  The two
      shapes are kept apart ([intobj]); they compare by value but only a
      member has the attributes [.value] and [.name].
    - A tuple and the list [tmp] of [bump] are lists of such objects.
    - The patterns are matched by a backtracking matcher, so that the
      greedy quantifiers behave as in [re]. *)

From Stdlib Require Import NArith Arith Bool List Ascii String Lia.
From Stdlib Require Import Decimal DecimalString DecimalN DecimalPos.
Import ListNotations.
Local Open Scope string_scope.
Local Open Scope N_scope.

(** ** Exceptions and the error monad *)

Inductive exn : Type :=
| ValueError (msg : string)
| TypeError (msg : string)
| AttributeError (msg : string)
| IndexError (msg : string).

Inductive result (A : Type) : Type :=
| OK (a : A)
| Raise (e : exn).

Arguments OK {A} a.
Arguments Raise {A} e.

Definition bind {A B : Type} (m : result A) (f : A -> result B) : result B :=
  match m with
  | OK a => f a
  | Raise e => Raise e
  end.

Notation "x <- m ;; k" := (bind m (fun x => k))
  (at level 61, m at next level, right associativity).

(** ** Python objects that reach [int()] and [from_value] *)

Inductive pyobj : Type :=
| PyNone
| PyStr (s : string)
| PyInt (n : N).

(** Truth value of an object, as tested by [if d['i']] and [if build]. *)
Definition truthy (o : pyobj) : bool :=
  match o with
  | PyNone => false
  | PyStr EmptyString => false
  | PyStr _ => true
  | PyInt n => negb (n =? 0)
  end.

(** ** Strings *)

Definition dq : string := String (ascii_of_nat 34) EmptyString.
Definition sq : string := String (ascii_of_nat 39) EmptyString.
Definition newline : ascii := ascii_of_nat 10.

(** [str(n)] and ['%d' % n] for a non-negative integer. *)
Definition str (n : N) : string := NilEmpty.string_of_uint (N.to_uint n).

(** [sep.join(l)] *)
Fixpoint join (sep : string) (l : list string) : string :=
  match l with
  | [] => EmptyString
  | [x] => x
  | x :: l' => x ++ sep ++ join sep l'
  end.

(** [pat in s] *)
Fixpoint contains (pat s : string) : bool :=
  prefix pat s ||
  match s with
  | EmptyString => false
  | String _ s' => contains pat s'
  end.

(** [int(o)].  The strings that reach it are regex captures: either all
    digits or all letters, so sign, blanks and underscores never occur. *)
Definition int_ (o : pyobj) : result N :=
  match o with
  | PyInt n => OK n
  | PyStr s =>
      match s, NilEmpty.uint_of_string s with
      | String _ _, Some d => OK (N.of_uint d)
      | _, _ => Raise (ValueError
                  ("invalid literal for int() with base 10: " ++ sq ++ s ++ sq))
      end
  | PyNone => Raise (TypeError
      "int() argument must be a string, a bytes-like object or a number, not 'NoneType'")
  end.

(** ** Character classes of the two grammars *)

Definition is_digit (c : ascii) : bool :=
  let n := nat_of_ascii c in (48 <=? n)%nat && (n <=? 57)%nat.
Definition is_alpha (c : ascii) : bool :=
  let n := nat_of_ascii c in
  ((65 <=? n)%nat && (n <=? 90)%nat) || ((97 <=? n)%nat && (n <=? 122)%nat).
Definition is_dot (c : ascii) : bool := Ascii.eqb c ".".
Definition is_dash (c : ascii) : bool := Ascii.eqb c "-".
Definition is_plus (c : ascii) : bool := Ascii.eqb c "+".

(** ** A backtracking matcher for the regular expressions of the module

    Only the constructs the two patterns use are present.  Quantifiers are
    greedy and backtrack, as in Python's [re]. *)

Inductive regex : Type :=
| Eps                              (* the empty pattern *)
| Bol                              (* ^ *)
| Eol                              (* $ *)
| Cls (p : ascii -> bool)          (* \d  [.]  [-]  [+] *)
| Many1 (p : ascii -> bool)        (* \d+  [a-zA-Z]+ *)
| Seq (r1 r2 : regex)
| Opt (r : regex)                  (* (...)? *)
| Grp (name : string) (r : regex). (* (?P<name>...) *)

(** The result of [groupdict()]: most recent capture first. *)
Definition groups : Type := list (string * string).

Definition cont : Type := nat -> string -> groups -> option groups.

Fixpoint many1 (p : ascii -> bool) (pos : nat) (s : string)
    (k : nat -> string -> option groups) : option groups :=
  match s with
  | String c s' =>
      if p c then
        match many1 p (S pos) s' k with
        | Some g => Some g
        | None => k (S pos) s'
        end
      else None
  | EmptyString => None
  end.

Fixpoint rmatch (r : regex) (pos : nat) (s : string) (g : groups) (k : cont)
    : option groups :=
  match r with
  | Eps => k pos s g
  | Bol => if Nat.eqb pos 0 then k pos s g else None
  | Eol =>
      match s with
      | EmptyString => k pos s g
      | String c EmptyString => if Ascii.eqb c newline then k pos s g else None
      | _ => None
      end
  | Cls p =>
      match s with
      | String c s' => if p c then k (S pos) s' g else None
      | EmptyString => None
      end
  | Many1 p => many1 p pos s (fun pos' s' => k pos' s' g)
  | Seq r1 r2 =>
      rmatch r1 pos s g (fun pos' s' g' => rmatch r2 pos' s' g' k)
  | Opt r =>
      match rmatch r pos s g k with
      | Some g' => Some g'
      | None => k pos s g
      end
  | Grp name r =>
      rmatch r pos s g
        (fun pos' s' g' => k pos' s' ((name, substring 0 (pos' - pos) s) :: g'))
  end.

(** [re.match(pattern, s)]: [None] or the match object, here its groups. *)
Definition re_match (r : regex) (s : string) : option groups :=
  rmatch r 0 s [] (fun _ _ g => Some g).

(** [d[name]] on a [groupdict()]: a group that took no part is [None]. *)
Fixpoint group (d : groups) (name : string) : pyobj :=
  match d with
  | [] => PyNone
  | (n, v) :: d' => if String.eqb n name then PyStr v else group d' name
  end.

(** Concatenation of pattern pieces, [''.join([...])] on the sources. *)
Fixpoint seq (l : list regex) : regex :=
  match l with
  | [] => Eps
  | [r] => r
  | r :: l' => Seq r (seq l')
  end.

Definition digits (name : string) : regex := Grp name (Many1 is_digit).

Definition _VERSION_PART_REGEXP : regex :=
  seq [digits "r"; Cls is_dot; digits "f"; Cls is_dot; digits "p"].
Definition _VERSION_STATE_PART_REGEXP : regex :=
  seq [Cls is_dot; Grp "s" (Cls is_digit); Cls is_dot; digits "i"].
Definition _VERSION_BLENDER_VERSION_PART_REGEXP : regex :=
  seq [digits "br"; Cls is_dot; digits "bf"; Cls is_dot; digits "bp"].
Definition _VERSION_BLENDER_PART_REGEXP : regex :=
  seq [Cls is_dot; _VERSION_BLENDER_VERSION_PART_REGEXP].
Definition _VERSION_BUILD_PART_REGEXP : regex :=
  Opt (seq [Cls is_dot; digits "b"]).

Definition _VERSION_REGEXP : regex :=
  seq [Bol; _VERSION_PART_REGEXP; _VERSION_STATE_PART_REGEXP;
       _VERSION_BLENDER_PART_REGEXP; _VERSION_BUILD_PART_REGEXP; Eol].

Definition _SEMVER_PRERELEASE_PART_REGEXP : regex :=
  seq [Cls is_dash; Grp "s" (Many1 is_alpha); Opt (digits "i"); Cls is_dash;
       _VERSION_BLENDER_VERSION_PART_REGEXP].
Definition _SEMVER_BUILD_PART_REGEXP : regex :=
  Opt (seq [Cls is_plus; digits "b"]).

Definition _SEMVER_REGEXP : regex :=
  seq [Bol; _VERSION_PART_REGEXP; _SEMVER_PRERELEASE_PART_REGEXP;
       _SEMVER_BUILD_PART_REGEXP; Eol].

(** ** Lists indexed and updated in place ([tmp[i]], [tmp[i] = x]) *)

Fixpoint getitem {A : Type} (l : list A) (i : nat) : result A :=
  match l, i with
  | [], _ => Raise (IndexError "list index out of range")
  | x :: _, O => OK x
  | _ :: l', S i' => getitem l' i'
  end.

Fixpoint setitem {A : Type} (l : list A) (i : nat) (x : A) : result (list A) :=
  match l, i with
  | [], _ => Raise (IndexError "list assignment index out of range")
  | _ :: l', O => OK (x :: l')
  | y :: l', S i' => l'' <- setitem l' i' x ;; OK (y :: l'')
  end.

(** ** class ReleaseState(IntEnum) *)

Module ReleaseState.

Inductive t : Type := ALPHA | BETA | RC | STABLE.

Definition value (s : t) : N :=
  match s with ALPHA => 1 | BETA => 2 | RC => 3 | STABLE => 4 end.

Definition name (s : t) : string :=
  match s with
  | ALPHA => "ALPHA" | BETA => "BETA" | RC => "RC" | STABLE => "STABLE"
  end.

(** [ReleaseState(n)] *)
Definition call (n : N) : result t :=
  if n =? 1 then OK ALPHA
  else if n =? 2 then OK BETA
  else if n =? 3 then OK RC
  else if n =? 4 then OK STABLE
  else Raise (ValueError (str n ++ " is not a valid ReleaseState")).

(** [value in ('ALPHA', 'BETA', 'RC', 'STABLE')] followed by
    [ReleaseState[value]] *)
Definition by_name (s : string) : option t :=
  if String.eqb s "ALPHA" then Some ALPHA
  else if String.eqb s "BETA" then Some BETA
  else if String.eqb s "RC" then Some RC
  else if String.eqb s "STABLE" then Some STABLE
  else None.

(** An integer object: a plain [int], or a member of the enumeration
    (an [IntEnum] member is an [int] too). *)
Inductive intobj : Type :=
| Plain (n : N)
| Member (s : t).

(** The integer an object stands for in arithmetic and comparisons. *)
Definition ival (x : intobj) : N :=
  match x with Plain n => n | Member s => value s end.

(** The attributes [.value] and [.name] exist on members only. *)
Definition attr_value (x : intobj) : result N :=
  match x with
  | Member s => OK (value s)
  | Plain _ => Raise (AttributeError "'int' object has no attribute 'value'")
  end.

Definition attr_name (x : intobj) : result string :=
  match x with
  | Member s => OK (name s)
  | Plain _ => Raise (AttributeError "'int' object has no attribute 'name'")
  end.

Definition bump (state : intobj) : result intobj :=
  if ival state =? 4 then OK state
  else s <- call (ival state + 1) ;; OK (Member s).

Definition from_value (value : pyobj) : result t :=
  match value with
  | PyStr s =>
      match by_name s with
      | Some m => OK m
      | None => n <- int_ value ;; call n
      end
  | _ => n <- int_ value ;; call n
  end.

End ReleaseState.

Abbreviation intobj := ReleaseState.intobj.
Abbreviation Plain := ReleaseState.Plain.
Abbreviation Member := ReleaseState.Member.
Abbreviation ival := ReleaseState.ival.
Abbreviation ALPHA := ReleaseState.ALPHA.
Abbreviation BETA := ReleaseState.BETA.
Abbreviation RC := ReleaseState.RC.
Abbreviation STABLE := ReleaseState.STABLE.

(** [str(x)] of an integer object.  A member prints under its qualified
    name (the [Enum.__str__] of the interpreters the module was written
    for); the renderers only ever apply it to plain integers when the
    numeric fields are plain. *)
Definition str_obj (x : intobj) : string :=
  match x with
  | Plain n => str n
  | Member s => "ReleaseState." ++ ReleaseState.name s
  end.

(** Truth value of an integer object. *)
Definition nonzero (x : intobj) : bool := negb (ival x =? 0).

(** [==] and [<] on tuples of integer objects. *)
Fixpoint tuple_eqb (a b : list intobj) : bool :=
  match a, b with
  | [], [] => true
  | x :: a', y :: b' => (ival x =? ival y) && tuple_eqb a' b'
  | _, _ => false
  end.

Fixpoint tuple_ltb (a b : list intobj) : bool :=
  match a, b with
  | _, [] => false
  | [], _ :: _ => true
  | x :: a', y :: b' =>
      if ival x =? ival y then tuple_ltb a' b' else ival x <? ival y
  end.

(** ** @dataclass(order=True, frozen=True) class Version *)

Module Version.

Record t : Type := mk {
  release : intobj;
  feature : intobj;
  patch : intobj;
  state : intobj;
  increment : intobj;
  brelease : intobj;
  bfeature : intobj;
  bpatch : intobj;
  build : intobj
}.

(** The field tuple the generated [__eq__] and [__lt__] compare. *)
Definition fields (v : t) : list intobj :=
  [release v; feature v; patch v; state v; increment v;
   brelease v; bfeature v; bpatch v; build v].

Definition __eq__ (self other : t) : bool :=
  tuple_eqb (fields self) (fields other).

Definition __lt__ (self other : t) : bool :=
  tuple_ltb (fields self) (fields other).

(** The constructor call on the unpacked tuple. *)
Definition from_tuple (version : list intobj) : result t :=
  match version with
  | [r; f; p; s; i; br; bf; bp; b] => OK (mk r f p s i br bf bp b)
  | _ => Raise (TypeError "__init__() takes 10 positional arguments")
  end.

Definition to_tuple (version : t) : result (list intobj) :=
  sv <- ReleaseState.attr_value (state version) ;;
  OK [release version; feature version; patch version; Plain sv;
      increment version; brelease version; bfeature version;
      bpatch version; build version].

Definition __str__ (self : t) : result string :=
  tup <- to_tuple self ;;
  OK (join "." (map str_obj tup)).

Definition _validate_blender (version : t) : result unit :=
  if negb (nonzero (brelease version))
  then Raise (ValueError "no blender min version requirement specified")
  else OK tt.

Definition _from_dict (d : groups) : result t :=
  r <- int_ (group d "r") ;;
  f <- int_ (group d "f") ;;
  p <- int_ (group d "p") ;;
  s <- ReleaseState.from_value (group d "s") ;;
  i <- (if truthy (group d "i") then int_ (group d "i") else OK 0) ;;
  br <- int_ (group d "br") ;;
  bf <- int_ (group d "bf") ;;
  bp <- int_ (group d "bp") ;;
  b <- (if truthy (group d "b") then int_ (group d "b") else OK 0) ;;
  from_tuple [Plain r; Plain f; Plain p; Member s; Plain i;
              Plain br; Plain bf; Plain bp; Plain b].

Definition semver_error (version : string) : string :=
  dq ++ version ++ dq ++
  " is not a valid addon semver version string, e.g. " ++
  dq ++ "1.0.0-ALPHA1-2.93.0" ++ dq.

Definition version_error (version : string) : string :=
  dq ++ version ++ dq ++
  " is not a valid addon version string, e.g. " ++
  dq ++ "1.0.0.1.1.2.93.0.0" ++ dq ++ " or " ++
  dq ++ "1.0.0-ALPHA1-2.93.0" ++ dq.

Definition _from_semver_string (version : string) : result t :=
  match re_match _SEMVER_REGEXP version with
  | None => Raise (ValueError (semver_error version))
  | Some matches =>
      result <- _from_dict matches ;;
      _ <- _validate_blender result ;;
      OK result
  end.

Definition from_string (version : string) : result t :=
  match re_match _VERSION_REGEXP version with
  | None =>
      match _from_semver_string version with
      | OK v => OK v
      | Raise (ValueError msg) =>
          if contains "blender" msg
          then Raise (ValueError msg)
          else Raise (ValueError (version_error version))
      | Raise ex => Raise ex
      end
  | Some matches =>
      result <- _from_dict matches ;;
      _ <- _validate_blender result ;;
      OK result
  end.

Definition to_semver (version : t) : result string :=
  nm <- ReleaseState.attr_name (state version) ;;
  OK (join EmptyString
    [ str (ival (release version)) ++ "." ++ str (ival (feature version))
        ++ "." ++ str (ival (patch version));
      "-" ++ nm
        ++ (if ival (state version) =? ReleaseState.value STABLE
            then EmptyString else str_obj (increment version))
        ++ "-" ++ str (ival (brelease version))
        ++ "." ++ str (ival (bfeature version))
        ++ "." ++ str (ival (bpatch version));
      if nonzero (build version)
      then "+" ++ str (ival (build version)) else EmptyString ]).

(** The body of [bump] up to the final construction: the field list
    [tmp] after all updates.  [build] and [blender] default to [None];
    a supplied value takes effect only when it is truthy, as the source
    tests them. *)
Definition bump_fields (version : t)
    (release_ feature_ patch_ state_ increment_ : bool)
    (build_ : option N) (blender : option (list intobj))
    : result (list intobj) :=
  tmp <- to_tuple version ;;
  (* fix state as it is now an int *)
  t3 <- getitem tmp 3 ;;
  s3 <- ReleaseState.from_value (PyInt (ival t3)) ;;
  tmp <- setitem tmp 3 (Member s3) ;;
  tmp <-
    (if release_ || feature_ || patch_ then
       tmp <-
         (if release_ then
            tmp <- setitem tmp 0 (Plain (ival (release version) + 1)) ;;
            setitem tmp 1 (Plain 0)
          else if feature_ then
            setitem tmp 1 (Plain (ival (feature version) + 1))
          else if patch_ then
            setitem tmp 2 (Plain (ival (patch version) + 1))
          else OK tmp) ;;
       (if release_ || feature_ then
          tmp <- setitem tmp 2 (Plain 0) ;;
          tmp <- setitem tmp 3 (Member ALPHA) ;;
          setitem tmp 4 (Plain 1)
        else OK tmp)
     else if state_ then
       s <- ReleaseState.bump (state version) ;;
       tmp <- setitem tmp 3 s ;;
       setitem tmp 4
         (Plain (if N.b2n state_ =? ReleaseState.value STABLE then 0 else 1))
     else
       t3 <- getitem tmp 3 ;;
       if increment_ && negb (ival t3 =? ReleaseState.value STABLE) then
         setitem tmp 4 (Plain (ival (increment version) + 1))
       else OK tmp) ;;
  tmp <-
    (if release_ || feature_ || patch_ || state_ || increment_
     then setitem tmp 8 (Plain 0)   (* we do not have a build yet *)
     else OK tmp) ;;
  tmp <-
    (match build_ with
     | Some b => if truthy (PyInt b) then setitem tmp 8 (Plain b) else OK tmp
     | None => OK tmp
     end) ;;
  match blender with
  | Some ((_ :: _) as bl) =>
      b0 <- getitem bl 0 ;;
      tmp <- setitem tmp 5 b0 ;;
      b1 <- getitem bl 1 ;;
      tmp <- setitem tmp 6 b1 ;;
      b2 <- getitem bl 2 ;;
      setitem tmp 7 b2
  | _ => OK tmp
  end.

Definition bump (version : t)
    (release_ feature_ patch_ state_ increment_ : bool)
    (build_ : option N) (blender : option (list intobj)) : result t :=
  tmp <- bump_fields version release_ feature_ patch_ state_ increment_
           build_ blender ;;
  result <- from_tuple tmp ;;
  _ <- _validate_blender result ;;
  OK result.

Definition is_stable (self : t) : bool := ival (state self) =? ReleaseState.value STABLE.
Definition is_alpha (self : t) : bool := ival (state self) =? ReleaseState.value ALPHA.
Definition is_beta (self : t) : bool := ival (state self) =? ReleaseState.value BETA.
Definition is_rc (self : t) : bool := ival (state self) =? ReleaseState.value RC.

End Version.

(** * Vocabulary of the statements *)

(** [Version(r, f, p, ReleaseState.s, i, br, bf, bp, b)] with literal
    integers. *)
Definition V (r f p : N) (s : ReleaseState.t) (i br bf bp b : N) : Version.t :=
  Version.mk (Plain r) (Plain f) (Plain p) (Member s) (Plain i)
             (Plain br) (Plain bf) (Plain bp) (Plain b).

(** Every character of the string is in the class. *)
Fixpoint all_in (p : ascii -> bool) (s : string) : bool :=
  match s with
  | EmptyString => true
  | String c s' => p c && all_in p s'
  end.

(** The string does not begin with a character of the class. *)
Definition heads_off (p : ascii -> bool) (s : string) : Prop :=
  match s with
  | EmptyString => True
  | String c _ => p c = false
  end.

(** The text [to_semver] produces, with the optional parts made explicit. *)
Definition opt_increment (oi : option N) (rest : string) : string :=
  match oi with Some i => str i ++ rest | None => rest end.

Definition opt_build (ob : option N) : string :=
  match ob with Some b => String "+" (str b) | None => EmptyString end.

Definition semver_text (r f p : N) (nm : string) (oi : option N)
    (br bf bp : N) (ob : option N) : string :=
  str r ++ String "." (str f ++ String "." (str p ++ String "-" (nm ++
    opt_increment oi (String "-" (str br ++ String "." (str bf ++
      String "." (str bp ++ opt_build ob))))))).

(** The captures of the semver pattern on that text. *)
Definition semver_groups (r f p : N) (nm : string) (oi : option N)
    (br bf bp : N) (ob : option N) : groups :=
  ((match ob with Some b => [("b", str b)] | None => [] end) ++
   [("bp", str bp); ("bf", str bf); ("br", str br)] ++
   (match oi with Some i => [("i", str i)] | None => [] end) ++
   [("s", nm); ("p", str p); ("f", str f); ("r", str r)])%list.

(** A [Version] as the data model describes it: plain integers in the
    numeric fields and a member of [ReleaseState] in [state]. *)
Inductive well_typed : Version.t -> Prop :=
| well_typed_V r f p s i br bf bp b : well_typed (V r f p s i br bf bp b).

(** The host floor is valid. *)
Definition has_floor (v : Version.t) : Prop := ival (Version.brelease v) <> 0.

(** The successor of a member, as [ReleaseState.bump] computes it. *)
Definition next_state (s : ReleaseState.t) : ReleaseState.t :=
  match s with ALPHA => BETA | BETA => RC | RC => STABLE | STABLE => STABLE end.

(** What [to_semver] shows of the increment and of the build. *)
Definition increment_shown (s : ReleaseState.t) (i : N) : option N :=
  if ReleaseState.value s =? ReleaseState.value STABLE then None else Some i.

Definition build_shown (b : N) : option N :=
  if b =? 0 then None else Some b.

(** An optional capture that took no part decodes to 0. *)
Definition or_zero (o : option N) : N :=
  match o with Some n => n | None => 0 end.

(** [from_string(str(v)) == v] and [from_string(to_semver(v)) == v]. *)
Definition dotted_roundtrip (v : Version.t) : Prop :=
  exists s w, Version.__str__ v = OK s
    /\ Version.from_string s = OK w /\ Version.__eq__ w v = true.

Definition semver_roundtrip (v : Version.t) : Prop :=
  exists s w, Version.to_semver v = OK s
    /\ Version.from_string s = OK w /\ Version.__eq__ w v = true.

(** * Properties *)

(** ** Decimal rendering and [int()] *)

Lemma string_of_uint_digits (d : Decimal.uint) :
  all_in is_digit (NilEmpty.string_of_uint d) = true.
Proof. induction d; simpl; auto. Qed.

Lemma str_digits (n : N) : all_in is_digit (str n) = true.
Proof. apply string_of_uint_digits. Qed.

Lemma str_nonempty (n : N) : str n <> EmptyString.
Proof.
  unfold str. destruct n as [|p]; [discriminate|].
  simpl. pose proof (DecimalPos.Unsigned.to_uint_nonnil p) as H.
  destruct (Pos.to_uint p); [congruence | discriminate ..].
Qed.

Lemma int_str (n : N) : int_ (PyStr (str n)) = OK n.
Proof.
  unfold int_. pose proof (str_nonempty n) as Hne.
  destruct (str n) eqn:E; [congruence|].
  rewrite <- E. unfold str. rewrite NilEmpty.usu.
  now rewrite DecimalN.Unsigned.of_to.
Qed.

Lemma truthy_str (n : N) : truthy (PyStr (str n)) = true.
Proof.
  pose proof (str_nonempty n). simpl. destruct (str n); congruence.
Qed.

(** ** The character classes are pairwise disjoint *)

Ltac by_cases_on_char c :=
  destruct c as [[] [] [] [] [] [] [] []]; vm_compute; congruence.

Lemma digit_not_dot c : is_digit c = true -> is_dot c = false.
Proof. by_cases_on_char c. Qed.
Lemma digit_not_dash c : is_digit c = true -> is_dash c = false.
Proof. by_cases_on_char c. Qed.
Lemma digit_not_plus c : is_digit c = true -> is_plus c = false.
Proof. by_cases_on_char c. Qed.
Lemma digit_not_alpha c : is_digit c = true -> is_alpha c = false.
Proof. by_cases_on_char c. Qed.
Lemma digit_not_newline c : is_digit c = true -> Ascii.eqb c newline = false.
Proof. by_cases_on_char c. Qed.
Lemma alpha_not_digit c : is_alpha c = true -> is_digit c = false.
Proof. by_cases_on_char c. Qed.
Lemma alpha_not_dash c : is_alpha c = true -> is_dash c = false.
Proof. by_cases_on_char c. Qed.

(** ** Greedy matching is forced when the next token is outside the class *)

Lemma substring_app_prefix (a b : string) :
  substring 0 (String.length a) (a ++ b) = a.
Proof.
  induction a as [|c a IH]; simpl.
  - now destruct b.
  - now rewrite IH.
Qed.

Lemma many1_stops p pos s k : heads_off p s -> many1 p pos s k = None.
Proof. destruct s as [|c s]; simpl; [easy | now intros ->]. Qed.

Lemma many1_greedy p ds : forall rest pos k,
  all_in p ds = true -> ds <> EmptyString -> heads_off p rest ->
  (forall pos' c s', p c = true -> k pos' (String c s') = None) ->
  many1 p pos (ds ++ rest) k = k (pos + String.length ds)%nat rest.
Proof.
  induction ds as [|c ds IH]; intros rest pos k Hall Hne Hrest Hk; [congruence|].
  simpl in Hall. apply andb_prop in Hall as [Hc Hall].
  simpl. rewrite Hc.
  destruct ds as [|c' ds].
  - simpl. rewrite (many1_stops _ _ _ _ Hrest).
    f_equal. lia.
  - rewrite IH by (auto; discriminate).
    replace (S pos + String.length (String c' ds))%nat
      with (pos + S (String.length (String c' ds)))%nat by lia.
    destruct (k _ rest) eqn:E; [reflexivity|].
    simpl in Hall. apply andb_prop in Hall as [Hc' _].
    simpl. now rewrite Hk.
Qed.

(** A named group around [cls+]: the capture is the whole run. *)
Lemma grp_many1 name p ds rest pos g (k : cont) :
  all_in p ds = true -> ds <> EmptyString -> heads_off p rest ->
  (forall pos' c s' g', p c = true -> k pos' (String c s') g' = None) ->
  rmatch (Grp name (Many1 p)) pos (ds ++ rest) g k
  = k (pos + String.length ds)%nat rest ((name, ds) :: g).
Proof.
  intros Hall Hne Hrest Hk. cbn [rmatch].
  rewrite many1_greedy; auto.
  replace (pos + String.length ds - pos)%nat with (String.length ds) by lia.
  now rewrite substring_app_prefix.
Qed.

Lemma heads_off_app p q ds rest :
  (forall c, q c = true -> p c = false) ->
  all_in q ds = true -> ds <> EmptyString -> heads_off p (ds ++ rest).
Proof.
  intros Hpq Hall Hne. destruct ds as [|c ds]; [congruence|].
  simpl in *. apply andb_prop in Hall as [Hc _]. auto.
Qed.

Lemma opt_absent r pos s g (k : cont) :
  rmatch r pos s g k = None -> rmatch (Opt r) pos s g k = k pos s g.
Proof. intros H. cbn [rmatch]. now rewrite H. Qed.

Lemma opt_present r pos s g (k : cont) d :
  rmatch r pos s g k = Some d -> rmatch (Opt r) pos s g k = Some d.
Proof. intros H. cbn [rmatch]. now rewrite H. Qed.

Lemma grp_cls name p c rest pos g (k : cont) :
  p c = true ->
  rmatch (Grp name (Cls p)) pos (String c rest) g k
  = k (S pos) rest ((name, String c EmptyString) :: g).
Proof.
  intros Hc. cbn [rmatch]. rewrite Hc.
  replace (S pos - pos)%nat with 1%nat by lia.
  simpl. now destruct rest.
Qed.

Lemma cls_accepts p c rest pos g (k : cont) :
  p c = true -> rmatch (Cls p) pos (String c rest) g k = k (S pos) rest g.
Proof. intros Hc. cbn [rmatch]. now rewrite Hc. Qed.

Lemma cls_rejects p c rest pos g (k : cont) :
  p c = false -> rmatch (Cls p) pos (String c rest) g k = None.
Proof. intros Hc. cbn [rmatch]. now rewrite Hc. Qed.

Lemma append_empty_r (s : string) : s ++ EmptyString = s.
Proof. induction s; simpl; congruence. Qed.

Lemma grp_many1_end name p ds pos g (k : cont) :
  all_in p ds = true -> ds <> EmptyString ->
  (forall pos' c s' g', p c = true -> k pos' (String c s') g' = None) ->
  rmatch (Grp name (Many1 p)) pos ds g k
  = k (pos + String.length ds)%nat EmptyString ((name, ds) :: g).
Proof.
  intros Hall Hne Hk.
  rewrite <- (append_empty_r ds) at 1.
  now apply grp_many1.
Qed.

(** The continuation fails on every input that begins inside the class
    just left: discharged by unfolding what comes next in the pattern. *)
Ltac reject_head :=
  let H := fresh "Hc" in
  let s := fresh "s" in
  intros ? ? s ? H; cbn [rmatch many1];
  rewrite ?(digit_not_dot _ H), ?(digit_not_dash _ H), ?(digit_not_plus _ H),
          ?(digit_not_alpha _ H), ?(alpha_not_digit _ H), ?(alpha_not_dash _ H),
          ?(digit_not_newline _ H);
  try reflexivity;
  destruct s; rewrite ?(digit_not_newline _ H); reflexivity.

Ltac run_digits :=
  rewrite grp_many1;
  [ cbv beta
  | apply str_digits
  | apply str_nonempty
  | first [exact I | reflexivity]
  | reject_head ].

Ltac run_digits_end :=
  rewrite grp_many1_end;
  [ cbv beta
  | apply str_digits
  | apply str_nonempty
  | reject_head ].

Ltac rstep :=
  lazymatch goal with
  | |- rmatch (Seq ?a ?b) ?pos ?s ?g ?k = _ =>
      change (rmatch (Seq a b) pos s g k)
        with (rmatch a pos s g (fun pos' s' g' => rmatch b pos' s' g' k));
      cbv beta
  | |- rmatch Bol 0 ?s ?g ?k = _ =>
      change (rmatch Bol 0 s g k) with (k 0%nat s g); cbv beta
  | |- rmatch Eol ?pos EmptyString ?g ?k = _ =>
      change (rmatch Eol pos EmptyString g k) with (k pos EmptyString g);
      cbv beta
  | |- rmatch (Grp _ (Many1 is_digit)) _ (str _ ++ _) _ _ = _ => run_digits
  | |- rmatch (Grp _ (Many1 is_digit)) _ (str _) _ _ = _ => run_digits_end
  | |- rmatch (Grp _ (Cls ?p)) _ (String ?c _) _ _ = _ =>
      rewrite (grp_cls _ p c) by assumption; cbv beta
  | |- rmatch (Cls ?p) _ (String ?c _) _ _ = _ =>
      first [ rewrite (cls_accepts p c) by reflexivity; cbv beta
            | rewrite (cls_rejects p c) by reflexivity ]
  | |- rmatch (Opt _) _ _ _ _ = Some _ => apply opt_present
  end.

Lemma state_digit (s : ReleaseState.t) :
  exists c, str (ReleaseState.value s) = String c EmptyString /\ is_digit c = true.
Proof. destruct s; eexists; split; reflexivity. Qed.

Ltac unfold_patterns :=
  cbv [_VERSION_REGEXP _VERSION_PART_REGEXP _VERSION_STATE_PART_REGEXP
       _VERSION_BLENDER_PART_REGEXP _VERSION_BLENDER_VERSION_PART_REGEXP
       _VERSION_BUILD_PART_REGEXP _SEMVER_REGEXP _SEMVER_PRERELEASE_PART_REGEXP
       _SEMVER_BUILD_PART_REGEXP seq digits].

Lemma dotted_match (r f p : N) (c : ascii) (i br bf bp b : N) :
  is_digit c = true ->
  re_match _VERSION_REGEXP
    (join "." [str r; str f; str p; String c EmptyString; str i;
               str br; str bf; str bp; str b])
  = Some [("b", str b); ("bp", str bp); ("bf", str bf); ("br", str br);
          ("i", str i); ("s", String c EmptyString);
          ("p", str p); ("f", str f); ("r", str r)].
Proof.
  intros Hc. unfold re_match. unfold_patterns.
  cbn [join append].
  repeat rstep. reflexivity.
Qed.

Lemma append_assoc (a b c : string) : (a ++ b) ++ c = a ++ (b ++ c).
Proof. induction a; simpl; congruence. Qed.

Lemma name_alpha (s : ReleaseState.t) :
  all_in is_alpha (ReleaseState.name s) = true.
Proof. now destruct s. Qed.

Lemma name_nonempty (s : ReleaseState.t) : ReleaseState.name s <> EmptyString.
Proof. now destruct s. Qed.

Ltac reject_alpha :=
  let H := fresh "Hc" in
  intros ? ? ? ? H; cbn [rmatch many1];
  rewrite (alpha_not_digit _ H), (alpha_not_dash _ H); reflexivity.

Ltac sstep :=
  lazymatch goal with
  | |- rmatch (Grp _ (Many1 is_alpha)) _ (_ ++ _) _ _ = _ =>
      rewrite grp_many1;
      [ cbv beta
      | assumption
      | assumption
      | first [ reflexivity
              | apply heads_off_app with (q := is_digit);
                [ exact digit_not_alpha | apply str_digits | apply str_nonempty ] ]
      | reject_alpha ]
  | |- rmatch (Opt _) _ _ _ _ = _ =>
      first [ rewrite opt_absent by reflexivity; cbv beta
            | apply opt_present ]
  | |- _ => rstep
  end.

Lemma semver_match r f p nm oi br bf bp ob :
  all_in is_alpha nm = true -> nm <> EmptyString ->
  re_match _SEMVER_REGEXP (semver_text r f p nm oi br bf bp ob)
  = Some (semver_groups r f p nm oi br bf bp ob).
Proof.
  intros Hall Hne. unfold re_match, semver_text. unfold_patterns.
  destruct oi as [i|], ob as [b|]; cbn [opt_increment opt_build append];
    repeat sstep; reflexivity.
Qed.

Lemma semver_not_dotted r f p nm oi br bf bp ob :
  re_match _VERSION_REGEXP (semver_text r f p nm oi br bf bp ob) = None.
Proof.
  unfold re_match, semver_text. unfold_patterns.
  repeat rstep. reflexivity.
Qed.

(** ** Validation of the host floor *)

Lemma from_value_value (s : ReleaseState.t) :
  ReleaseState.from_value (PyInt (ReleaseState.value s)) = OK s.
Proof. now destruct s. Qed.

Lemma validate_floor (v : Version.t) :
  has_floor v -> Version._validate_blender v = OK tt.
Proof.
  unfold has_floor, Version._validate_blender, nonzero. intros H.
  apply N.eqb_neq in H. now rewrite H.
Qed.

Lemma validate_no_floor (v : Version.t) :
  ival (Version.brelease v) = 0 ->
  Version._validate_blender v
  = Raise (ValueError "no blender min version requirement specified").
Proof.
  unfold Version._validate_blender, nonzero. intros H.
  apply N.eqb_eq in H. now rewrite H.
Qed.

Lemma bump_member (s : ReleaseState.t) :
  ReleaseState.bump (Member s) = OK (Member (next_state s)).
Proof. now destruct s. Qed.

(** Evaluation of [bump] on a version given by its nine components. *)
Ltac bump_eval :=
  unfold Version.bump, Version.bump_fields;
  cbn -[N.add N.eqb ReleaseState.from_value ReleaseState.bump
        Version._validate_blender];
  rewrite from_value_value;
  cbn -[N.add N.eqb ReleaseState.bump Version._validate_blender];
  rewrite ?bump_member;
  cbn -[N.add N.eqb Version._validate_blender].

Lemma validate_OK_floor (v : Version.t) :
  Version._validate_blender v = OK tt -> has_floor v.
Proof.
  unfold has_floor, Version._validate_blender, nonzero.
  destruct (ival (Version.brelease v) =? 0) eqn:E; simpl; [discriminate|].
  intros _. now apply N.eqb_neq.
Qed.

Lemma bind_OK {A B : Type} (m : result A) (f : A -> result B) (b : B) :
  bind m f = OK b -> exists a, m = OK a /\ f a = OK b.
Proof. destruct m as [a|e]; simpl; [eauto | discriminate]. Qed.

(** The closing lines shared by both parsers and by [bump]. *)
Lemma validated_OK (m : result Version.t) (v : Version.t) :
  (result <- m ;; _ <- Version._validate_blender result ;; OK result) = OK v ->
  m = OK v /\ has_floor v.
Proof.
  intros H. apply bind_OK in H as (w & Hm & H).
  apply bind_OK in H as ([] & Hv & H). injection H as <-.
  split; [assumption | now apply validate_OK_floor].
Qed.

Lemma validated_no_floor (m : result Version.t) (v : Version.t) :
  m = OK v -> ival (Version.brelease v) = 0 ->
  (result <- m ;; _ <- Version._validate_blender result ;; OK result)
  = Raise (ValueError "no blender min version requirement specified").
Proof. intros -> H. simpl. now rewrite validate_no_floor. Qed.

(** ** Parsing never yields a version without a host floor *)

Lemma from_semver_string_floor (s : string) (v : Version.t) :
  Version._from_semver_string s = OK v -> has_floor v.
Proof.
  unfold Version._from_semver_string.
  destruct (re_match _SEMVER_REGEXP s); [|discriminate].
  intros H. now apply validated_OK in H.
Qed.

Lemma from_string_floor (s : string) (v : Version.t) :
  Version.from_string s = OK v -> has_floor v.
Proof.
  unfold Version.from_string.
  destruct (re_match _VERSION_REGEXP s).
  - intros H. now apply validated_OK in H.
  - destruct (Version._from_semver_string s) as [w|[msg|msg|msg|msg]] eqn:E;
      try discriminate.
    + intros [= <-]. now apply from_semver_string_floor in E.
    + destruct (contains "blender" msg); discriminate.
Qed.

Lemma from_string_dotted_no_floor (s : string) (d : groups) (v : Version.t) :
  re_match _VERSION_REGEXP s = Some d ->
  Version._from_dict d = OK v ->
  ival (Version.brelease v) = 0 ->
  Version.from_string s
  = Raise (ValueError "no blender min version requirement specified").
Proof.
  intros Hm Hd H0. unfold Version.from_string. rewrite Hm.
  now apply validated_no_floor with (v := v).
Qed.

Lemma from_string_semver_no_floor (s : string) (d : groups) (v : Version.t) :
  re_match _VERSION_REGEXP s = None ->
  re_match _SEMVER_REGEXP s = Some d ->
  Version._from_dict d = OK v ->
  ival (Version.brelease v) = 0 ->
  Version.from_string s
  = Raise (ValueError "no blender min version requirement specified").
Proof.
  intros Hn Hm Hd H0. unfold Version.from_string, Version._from_semver_string.
  rewrite Hn, Hm.
  now rewrite (validated_no_floor _ v Hd H0).
Qed.

(** ** [bump] never yields a version without a host floor *)

Lemma bump_floor v rel fe pa st inc bld bl w :
  Version.bump v rel fe pa st inc bld bl = OK w -> has_floor w.
Proof.
  unfold Version.bump. intros H.
  apply bind_OK in H as (tmp & _ & H).
  now apply validated_OK in H.
Qed.

Lemma bump_no_floor v rel fe pa st inc bld bl tmp w :
  Version.bump_fields v rel fe pa st inc bld bl = OK tmp ->
  Version.from_tuple tmp = OK w ->
  ival (Version.brelease w) = 0 ->
  Version.bump v rel fe pa st inc bld bl
  = Raise (ValueError "no blender min version requirement specified").
Proof.
  intros Hf Ht H0. unfold Version.bump. rewrite Hf. simpl.
  now apply validated_no_floor with (v := w).
Qed.

(** ** Bumping *)

(** C1, on the code: [bump(v, state=True)] sets the state to
    [ReleaseState.bump(v.state)] and the increment to 1 in every case,
    also when the new state is STABLE.  The source decides between 0 and
    1 by comparing the boolean flag [state] with [ReleaseState.STABLE];
    [True == 4] is false, so the branch that would write 0 is never
    taken. *)
Theorem bump_state_sets_increment_1 (v : Version.t) :
  well_typed v -> has_floor v ->
  exists w s', Version.bump v false false false true false None None = OK w
    /\ ReleaseState.bump (Version.state v) = OK s'
    /\ Version.state w = s'
    /\ Version.increment w = Plain 1.
Proof.
  intros [r f p s i br bf bp b] Hfl. bump_eval.
  rewrite validate_floor by exact Hfl. cbn.
  do 2 eexists. repeat split.
Qed.

Lemma bump_state_sets_increment_1_witness :
  exists w s',
    Version.bump (V 1 0 0 RC 1 2 93 0 0) false false false true false
      None None = OK w
    /\ ReleaseState.bump (Version.state (V 1 0 0 RC 1 2 93 0 0)) = OK s'
    /\ Version.state w = s'
    /\ Version.increment w = Plain 1.
Proof.
  apply (bump_state_sets_increment_1 (V 1 0 0 RC 1 2 93 0 0)).
  - constructor.
  - vm_compute. discriminate.
Defined.

Example bump_state_from_rc :
  Version.bump (V 1 0 0 RC 1 2 93 0 0) false false false true false None None
  = OK (V 1 0 0 STABLE 1 2 93 0 0).
Proof. reflexivity. Qed.

(** C7, on the code: the build field of [bump(v, ..., build=b)] is [b]
    when [b] is nonzero.  A supplied 0 is not applied: the field is then
    0 if some bump flag caused the reset and the build of [v] otherwise,
    because the source tests the argument for truth instead of testing
    it against [None]. *)
Theorem bump_build_argument (v : Version.t) (rel fe pa st inc : bool) (b : N) :
  well_typed v -> has_floor v ->
  exists w, Version.bump v rel fe pa st inc (Some b) None = OK w
    /\ Version.build w =
       if b =? 0
       then (if rel || fe || pa || st || inc then Plain 0 else Version.build v)
       else Plain b.
Proof.
  intros [r f p s i br bf bp b0] Hfl. bump_eval.
  destruct (b =? 0);
    destruct rel, fe, pa, st, inc;
    cbn -[N.add N.eqb ReleaseState.bump Version._validate_blender];
    rewrite ?bump_member;
    try destruct (ReleaseState.value s =? 4);
    cbn -[N.add Version._validate_blender];
    rewrite validate_floor by exact Hfl; cbn -[N.add]; eauto.
Qed.

Lemma bump_build_argument_witness :
  exists w,
    Version.bump (V 1 0 0 ALPHA 1 2 93 0 5) false false false false false
      (Some 0) None = OK w
    /\ Version.build w = Plain 5.
Proof.
  apply (bump_build_argument (V 1 0 0 ALPHA 1 2 93 0 5)
           false false false false false 0).
  - constructor.
  - vm_compute. discriminate.
Defined.

Example bump_build_zero_is_ignored :
  Version.bump (V 1 0 0 ALPHA 1 2 93 0 5) false false false false false
    (Some 0) None
  = OK (V 1 0 0 ALPHA 1 2 93 0 5).
Proof. reflexivity. Qed.

(** C8: [bump(v, release=True)] on a version with a valid host floor
    returns a version with release incremented by one, feature 0, patch 0,
    state ALPHA, increment 1 and build 0. *)
Theorem bump_release (v : Version.t) :
  well_typed v -> has_floor v ->
  exists w, Version.bump v true false false false false None None = OK w
    /\ Version.release w = Plain (ival (Version.release v) + 1)
    /\ Version.feature w = Plain 0
    /\ Version.patch w = Plain 0
    /\ Version.state w = Member ALPHA
    /\ Version.increment w = Plain 1
    /\ Version.build w = Plain 0.
Proof.
  intros [r f p s i br bf bp b] Hfl. bump_eval.
  rewrite validate_floor by exact Hfl.
  eexists; split; [reflexivity|]. cbn -[N.add]. repeat split.
Qed.

Lemma bump_release_witness :
  exists w,
    Version.bump (V 1 4 2 BETA 3 2 93 0 7) true false false false false
      None None = OK w
    /\ Version.release w = Plain (ival (Version.release (V 1 4 2 BETA 3 2 93 0 7)) + 1)
    /\ Version.feature w = Plain 0
    /\ Version.patch w = Plain 0
    /\ Version.state w = Member ALPHA
    /\ Version.increment w = Plain 1
    /\ Version.build w = Plain 0.
Proof.
  apply (bump_release (V 1 4 2 BETA 3 2 93 0 7)).
  - constructor.
  - vm_compute. discriminate.
Defined.

(** C9: [bump(v, patch=True)] on a version with a valid host floor
    increments patch by one and resets build to 0; release, feature,
    state, increment and the three host-floor fields are those of [v]. *)
Theorem bump_patch (v : Version.t) :
  well_typed v -> has_floor v ->
  exists w, Version.bump v false false true false false None None = OK w
    /\ Version.patch w = Plain (ival (Version.patch v) + 1)
    /\ Version.build w = Plain 0
    /\ Version.release w = Version.release v
    /\ Version.feature w = Version.feature v
    /\ Version.state w = Version.state v
    /\ Version.increment w = Version.increment v
    /\ Version.brelease w = Version.brelease v
    /\ Version.bfeature w = Version.bfeature v
    /\ Version.bpatch w = Version.bpatch v.
Proof.
  intros [r f p s i br bf bp b] Hfl. bump_eval.
  rewrite validate_floor by exact Hfl.
  eexists; split; [reflexivity|]. cbn -[N.add]. repeat split.
Qed.

Lemma bump_patch_witness :
  exists w,
    Version.bump (V 1 4 2 RC 3 2 93 1 7) false false true false false
      None None = OK w
    /\ Version.patch w = Plain (ival (Version.patch (V 1 4 2 RC 3 2 93 1 7)) + 1)
    /\ Version.build w = Plain 0
    /\ Version.release w = Version.release (V 1 4 2 RC 3 2 93 1 7)
    /\ Version.feature w = Version.feature (V 1 4 2 RC 3 2 93 1 7)
    /\ Version.state w = Version.state (V 1 4 2 RC 3 2 93 1 7)
    /\ Version.increment w = Version.increment (V 1 4 2 RC 3 2 93 1 7)
    /\ Version.brelease w = Version.brelease (V 1 4 2 RC 3 2 93 1 7)
    /\ Version.bfeature w = Version.bfeature (V 1 4 2 RC 3 2 93 1 7)
    /\ Version.bpatch w = Version.bpatch (V 1 4 2 RC 3 2 93 1 7).
Proof.
  apply (bump_patch (V 1 4 2 RC 3 2 93 1 7)).
  - constructor.
  - vm_compute. discriminate.
Defined.

(** ** Ordering *)

Lemma lt_decided_by_patch r f p p' s s' i i' br br' bf bf' bp bp' b b' :
  p < p' ->
  Version.__lt__ (V r f p s i br bf bp b) (V r f p' s' i' br' bf' bp' b') = true.
Proof.
  intros H. unfold Version.__lt__. cbn -[N.eqb N.ltb].
  rewrite !N.eqb_refl.
  destruct (p =? p') eqn:E.
  - apply N.eqb_eq in E. lia.
  - now apply N.ltb_lt.
Qed.

(** C3 as stated fails: the first comparison is not false. *)
Lemma lt_beta_patch0_alpha_patch1_not_false :
  ~ (Version.__lt__ (V 1 0 0 BETA 1 2 93 0 0) (V 1 0 1 ALPHA 1 2 93 0 0) = false
     /\ Version.__lt__ (V 1 0 0 ALPHA 1 2 93 0 0) (V 1 0 0 BETA 1 2 93 0 0) = true).
Proof. intros [H _]. vm_compute in H. discriminate. Qed.

(** C3, amended: under the field-by-field lexicographic order of the
    dataclass, both comparisons evaluate to true.  The patch field is
    compared before the state, so 1.0.0 BETA is below 1.0.1 ALPHA. *)
Theorem lt_follows_declaration_order :
  Version.__lt__ (V 1 0 0 BETA 1 2 93 0 0) (V 1 0 1 ALPHA 1 2 93 0 0) = true
  /\ Version.__lt__ (V 1 0 0 ALPHA 1 2 93 0 0) (V 1 0 0 BETA 1 2 93 0 0) = true.
Proof. split; reflexivity. Qed.

(** ** The host-floor error *)

(** C4: [from_string("1.0.0-ALPHA1-0.0.0")] fails with the host-floor
    error and not with the generic one; in general, when the dotted
    grammar does not match and the semver grammar matches with a decoded
    [brelease] of 0, the host-floor error is what [from_string] raises. *)
Theorem from_string_propagates_floor_error :
  Version.from_string "1.0.0-ALPHA1-0.0.0"
    = Raise (ValueError "no blender min version requirement specified")
  /\ Version.from_string "1.0.0-ALPHA1-0.0.0"
    <> Raise (ValueError (Version.version_error "1.0.0-ALPHA1-0.0.0"))
  /\ forall (s : string) (d : groups) (v : Version.t),
       re_match _VERSION_REGEXP s = None ->
       re_match _SEMVER_REGEXP s = Some d ->
       Version._from_dict d = OK v ->
       ival (Version.brelease v) = 0 ->
       Version.from_string s
       = Raise (ValueError "no blender min version requirement specified").
Proof.
  split; [reflexivity|]. split; [vm_compute; discriminate|].
  exact from_string_semver_no_floor.
Qed.

Lemma from_string_propagates_floor_error_witness :
  Version.from_string "7.1.0-RC2-0.93.1+4"
  = Raise (ValueError "no blender min version requirement specified").
Proof.
  apply (proj2 (proj2 from_string_propagates_floor_error))
    with (d := [("b", "4"); ("bp", "1"); ("bf", "93"); ("br", "0");
                ("i", "2"); ("s", "RC"); ("p", "0"); ("f", "1"); ("r", "7")])
         (v := V 7 1 0 RC 2 0 93 1 4);
    reflexivity.
Defined.

(** C5: a version returned by [from_string] or by [bump] has a nonzero
    [brelease]; and whenever the decoded version, or the version built
    from the bumped fields, has [brelease] 0, the operation raises the
    host-floor error. *)
Theorem host_floor_enforced :
  (forall s v, Version.from_string s = OK v -> has_floor v)
  /\ (forall v rel fe pa st inc bld bl w,
        Version.bump v rel fe pa st inc bld bl = OK w -> has_floor w)
  /\ (forall s d v,
        re_match _VERSION_REGEXP s = Some d
        \/ (re_match _VERSION_REGEXP s = None
            /\ re_match _SEMVER_REGEXP s = Some d) ->
        Version._from_dict d = OK v ->
        ival (Version.brelease v) = 0 ->
        Version.from_string s
        = Raise (ValueError "no blender min version requirement specified"))
  /\ (forall v rel fe pa st inc bld bl tmp w,
        Version.bump_fields v rel fe pa st inc bld bl = OK tmp ->
        Version.from_tuple tmp = OK w ->
        ival (Version.brelease w) = 0 ->
        Version.bump v rel fe pa st inc bld bl
        = Raise (ValueError "no blender min version requirement specified")).
Proof.
  repeat split.
  - exact from_string_floor.
  - exact bump_floor.
  - intros s d v [Hm | [Hn Hm]].
    + now apply from_string_dotted_no_floor.
    + now apply from_string_semver_no_floor.
  - exact bump_no_floor.
Qed.

Lemma host_floor_enforced_witness :
  has_floor (V 1 0 0 ALPHA 1 2 93 0 0)
  /\ has_floor (V 1 1 0 ALPHA 1 2 93 0 0)
  /\ Version.from_string "1.0.0.1.1.0.0.0"
     = Raise (ValueError "no blender min version requirement specified")
  /\ Version.bump (V 1 0 0 ALPHA 1 2 93 0 0) false true false false false None
       (Some [Plain 0; Plain 0; Plain 0])
     = Raise (ValueError "no blender min version requirement specified").
Proof.
  destruct host_floor_enforced as (Hparse & Hbump & Hparse0 & Hbump0).
  split; [|split; [|split]].
  - apply (Hparse "1.0.0-ALPHA1-2.93.0"). reflexivity.
  - apply (Hbump (V 1 0 0 ALPHA 1 2 93 0 0) false true false false false
             None None).
    reflexivity.
  - apply Hparse0
      with (d := [("bp", "0"); ("bf", "0"); ("br", "0"); ("i", "1");
                  ("s", "1"); ("p", "0"); ("f", "0"); ("r", "1")])
           (v := V 1 0 0 ALPHA 1 0 0 0 0).
    + left. reflexivity.
    + reflexivity.
    + reflexivity.
  - apply Hbump0
      with (tmp := [Plain 1; Plain 1; Plain 0; Member ALPHA; Plain 1;
                    Plain 0; Plain 0; Plain 0; Plain 0])
           (w := V 1 1 0 ALPHA 1 0 0 0 0);
      reflexivity.
Defined.

(** ** Construction from a tuple *)

Lemma tuple_eqb_refl (l : list intobj) : tuple_eqb l l = true.
Proof. induction l; simpl; [reflexivity|]. now rewrite N.eqb_refl. Qed.

Lemma eq_refl_version (v : Version.t) : Version.__eq__ v v = true.
Proof. apply tuple_eqb_refl. Qed.

(** With a member of the enumeration in the state slot the tuple does
    come back, up to [==]. *)
Lemma from_tuple_member_roundtrip r f p (s : ReleaseState.t) i br bf bp b :
  let t := [r; f; p; Member s; i; br; bf; bp; b] in
  exists v t', Version.from_tuple t = OK v
    /\ Version.to_tuple v = OK t' /\ tuple_eqb t' t = true.
Proof.
  do 2 eexists. repeat split. cbn -[N.eqb]. now rewrite !N.eqb_refl.
Qed.

(** C6, evaluated on the code: for a tuple of plain integers, as it
    comes from [bl_info], [from_tuple] succeeds but stores the state as
    the plain integer it was given; [to_tuple] then fails on
    [version.state.value].  No tuple is returned to compare with. *)
Theorem from_tuple_of_plain_ints_breaks_to_tuple (r f p s i br bf bp b : N) :
  exists v,
    Version.from_tuple [Plain r; Plain f; Plain p; Plain s; Plain i;
                        Plain br; Plain bf; Plain bp; Plain b] = OK v
    /\ Version.to_tuple v
       = Raise (AttributeError "'int' object has no attribute 'value'").
Proof. eexists. split; reflexivity. Qed.

(** C10: [from_tuple] does not validate the host floor: on every 9-tuple
    whose [brelease] component is 0 it returns a version with [brelease]
    0, one that [_validate_blender] would have refused. *)
Theorem from_tuple_skips_validation (r f p s i br bf bp b : intobj) :
  ival br = 0 ->
  exists v,
    Version.from_tuple [r; f; p; s; i; br; bf; bp; b] = OK v
    /\ Version.brelease v = br
    /\ ival (Version.brelease v) = 0
    /\ Version._validate_blender v
       = Raise (ValueError "no blender min version requirement specified").
Proof.
  intros H0. eexists. split; [reflexivity|]. cbn [Version.brelease].
  repeat split; auto. now apply validate_no_floor.
Qed.

Lemma from_tuple_skips_validation_witness :
  exists v,
    Version.from_tuple [Plain 1; Plain 0; Plain 0; Member ALPHA; Plain 1;
                        Plain 0; Plain 93; Plain 0; Plain 0] = OK v
    /\ Version.brelease v = Plain 0
    /\ ival (Version.brelease v) = 0
    /\ Version._validate_blender v
       = Raise (ValueError "no blender min version requirement specified").
Proof.
  apply (from_tuple_skips_validation (Plain 1) (Plain 0) (Plain 0)
           (Member ALPHA) (Plain 1) (Plain 0) (Plain 93) (Plain 0) (Plain 0)).
  reflexivity.
Defined.

(** ** Round trips through the two renderings *)

Lemma from_value_digit (s : ReleaseState.t) :
  ReleaseState.from_value (PyStr (str (ReleaseState.value s))) = OK s.
Proof. now destruct s. Qed.

Lemma from_value_name (s : ReleaseState.t) :
  ReleaseState.from_value (PyStr (ReleaseState.name s)) = OK s.
Proof. now destruct s. Qed.

Ltac decode :=
  unfold Version._from_dict;
  cbn [group String.eqb Ascii.eqb Bool.eqb];
  rewrite ?int_str, ?truthy_str, ?from_value_digit, ?from_value_name;
  cbn [bind truthy Version.from_tuple].

Lemma str_of_well_typed r f p s i br bf bp b :
  Version.__str__ (V r f p s i br bf bp b)
  = OK (join "." [str r; str f; str p; str (ReleaseState.value s); str i;
                  str br; str bf; str bp; str b]).
Proof. reflexivity. Qed.

Lemma from_string_dotted r f p s i br bf bp b :
  br <> 0 ->
  Version.from_string
    (join "." [str r; str f; str p; str (ReleaseState.value s); str i;
               str br; str bf; str bp; str b])
  = OK (V r f p s i br bf bp b).
Proof.
  intros Hbr. unfold Version.from_string.
  destruct (state_digit s) as (c & Hs & Hc).
  rewrite Hs, (dotted_match _ _ _ _ _ _ _ _ _ Hc), <- Hs.
  decode.
  now rewrite validate_floor.
Qed.

Lemma to_semver_of_well_typed r f p s i br bf bp b :
  Version.to_semver (V r f p s i br bf bp b)
  = OK (semver_text r f p (ReleaseState.name s) (increment_shown s i)
          br bf bp (build_shown b)).
Proof.
  unfold Version.to_semver, semver_text, increment_shown, build_shown, nonzero.
  cbn -[N.eqb str ReleaseState.name ReleaseState.value].
  f_equal.
  destruct (ReleaseState.value s =? ReleaseState.value STABLE), (b =? 0);
    cbn [negb opt_increment opt_build append];
    repeat (rewrite append_assoc; cbn [append]);
    rewrite ?append_empty_r; reflexivity.
Qed.

Lemma from_string_semver r f p s oi br bf bp ob :
  br <> 0 ->
  Version.from_string (semver_text r f p (ReleaseState.name s) oi br bf bp ob)
  = OK (V r f p s (or_zero oi) br bf bp (or_zero ob)).
Proof.
  intros Hbr. unfold Version.from_string, Version._from_semver_string.
  rewrite semver_not_dotted.
  rewrite semver_match by (apply name_alpha || apply name_nonempty).
  unfold semver_groups.
  destruct oi as [i|], ob as [b|]; cbn [List.app]; decode;
    now rewrite validate_floor.
Qed.

Lemma or_zero_build (b : N) : or_zero (build_shown b) = b.
Proof.
  unfold build_shown. destruct (b =? 0) eqn:E; [|reflexivity].
  apply N.eqb_eq in E. now subst.
Qed.

(** What the semver round trip returns in general: the version itself,
    except that a STABLE version comes back with increment 0. *)
Lemma semver_roundtrip_general r f p s i br bf bp b :
  br <> 0 ->
  exists text,
    Version.to_semver (V r f p s i br bf bp b) = OK text
    /\ Version.from_string text
       = OK (V r f p s (or_zero (increment_shown s i)) br bf bp b).
Proof.
  intros Hbr. eexists. split; [apply to_semver_of_well_typed|].
  rewrite from_string_semver by assumption. now rewrite or_zero_build.
Qed.

(** C2 as stated fails: a STABLE version with increment 1 renders as
    ["1.0.0-STABLE-2.93.0"], which parses to increment 0. *)
Lemma semver_roundtrip_fails_on_stable_increment :
  well_typed (V 1 0 0 STABLE 1 2 93 0 0)
  /\ has_floor (V 1 0 0 STABLE 1 2 93 0 0)
  /\ ~ (dotted_roundtrip (V 1 0 0 STABLE 1 2 93 0 0)
        /\ semver_roundtrip (V 1 0 0 STABLE 1 2 93 0 0)).
Proof.
  split; [constructor|]. split; [vm_compute; discriminate|].
  intros [_ (s & w & Hs & Hw & He)].
  vm_compute in Hs. injection Hs as <-.
  vm_compute in Hw. injection Hw as <-.
  vm_compute in He. discriminate.
Qed.

(** C2, amended: for every version with a nonzero [brelease], parsing
    the dotted rendering returns an equal version; parsing the semver
    rendering returns an equal version provided the state is not STABLE
    or the increment is 0.  For a STABLE version the semver rendering
    omits the increment (it is the same text whatever the increment is),
    and parsing it returns the version with increment 0 and every other
    field as it was. *)
Theorem roundtrip (v : Version.t) :
  well_typed v -> has_floor v ->
  dotted_roundtrip v
  /\ (ival (Version.state v) <> ReleaseState.value STABLE
      \/ ival (Version.increment v) = 0 ->
      semver_roundtrip v)
  /\ (ival (Version.state v) = ReleaseState.value STABLE ->
      exists text,
        Version.to_semver v = OK text
        /\ (forall i' : intobj,
              Version.to_semver
                (Version.mk (Version.release v) (Version.feature v)
                   (Version.patch v) (Version.state v) i'
                   (Version.brelease v) (Version.bfeature v)
                   (Version.bpatch v) (Version.build v)) = OK text)
        /\ Version.from_string text
           = OK (Version.mk (Version.release v) (Version.feature v)
                   (Version.patch v) (Version.state v) (Plain 0)
                   (Version.brelease v) (Version.bfeature v)
                   (Version.bpatch v) (Version.build v))).
Proof.
  intros [r f p s i br bf bp b] Hfl.
  assert (Hbr : br <> 0) by exact Hfl.
  split; [|split].
  - exists (join "." [str r; str f; str p; str (ReleaseState.value s); str i;
                      str br; str bf; str bp; str b]), (V r f p s i br bf bp b).
    split; [apply str_of_well_typed|].
    split; [now apply from_string_dotted | apply eq_refl_version].
  - intros Hcond.
    destruct (semver_roundtrip_general r f p s i br bf bp b Hbr)
      as (text & Ht & Hp).
    exists text, (V r f p s i br bf bp b).
    split; [assumption|]. split; [|apply eq_refl_version].
    rewrite Hp. do 2 f_equal.
    unfold increment_shown. cbn [Version.state Version.increment V ival] in Hcond.
    destruct (ReleaseState.value s =? ReleaseState.value STABLE) eqn:E;
      [|reflexivity].
    apply N.eqb_eq in E. simpl. destruct Hcond; congruence.
  - intros Hst. cbn [Version.state V ival] in Hst.
    destruct s; try discriminate Hst.
    destruct (semver_roundtrip_general r f p STABLE i br bf bp b Hbr)
      as (text & Ht & Hp).
    exists text. split; [exact Ht|]. split.
    + intros i'. rewrite <- Ht. reflexivity.
    + exact Hp.
Qed.

Lemma roundtrip_witness :
  (dotted_roundtrip (V 2 1 3 BETA 4 2 93 1 7)
   /\ semver_roundtrip (V 2 1 3 BETA 4 2 93 1 7))
  /\ (exists text,
        Version.to_semver (V 1 0 0 STABLE 5 2 93 0 7) = OK text
        /\ Version.to_semver (V 1 0 0 STABLE 0 2 93 0 7) = OK text
        /\ Version.from_string text = OK (V 1 0 0 STABLE 0 2 93 0 7)).
Proof.
  split.
  - destruct (roundtrip (V 2 1 3 BETA 4 2 93 1 7)) as (Hd & Hs & _).
    + constructor.
    + vm_compute. discriminate.
    + split; [exact Hd|]. apply Hs. left. vm_compute. discriminate.
  - destruct (roundtrip (V 1 0 0 STABLE 5 2 93 0 7)) as (_ & _ & Hst).
    + constructor.
    + vm_compute. discriminate.
    + destruct (Hst eq_refl) as (text & Ht & Hany & Hp).
      exists text. split; [exact Ht|]. split; [exact (Hany (Plain 0))|].
      exact Hp.
Defined.

(** ** The doctests of the module *)

Example doctest_bump_alpha : ReleaseState.bump (Member ALPHA) = OK (Member BETA).
Proof. reflexivity. Qed.

Example doctest_bump_stable : ReleaseState.bump (Member STABLE) = OK (Member STABLE).
Proof. reflexivity. Qed.

Example doctest_from_value_int : ReleaseState.from_value (PyInt 1) = OK ALPHA.
Proof. reflexivity. Qed.

Example doctest_from_value_name : ReleaseState.from_value (PyStr "BETA") = OK BETA.
Proof. reflexivity. Qed.

Example doctest_from_value_zero :
  ReleaseState.from_value (PyInt 0)
  = Raise (ValueError "0 is not a valid ReleaseState").
Proof. reflexivity. Qed.

Example doctest_str :
  Version.__str__ (V 1 0 0 ALPHA 1 2 93 0 0) = OK "1.0.0.1.1.2.93.0.0".
Proof. reflexivity. Qed.

Example doctest_from_string_dotted :
  Version.from_string "1.0.0.1.1.2.93.0.0" = OK (V 1 0 0 ALPHA 1 2 93 0 0).
Proof. reflexivity. Qed.

Example doctest_from_string_semver :
  Version.from_string "1.0.0-ALPHA1-2.93.0" = OK (V 1 0 0 ALPHA 1 2 93 0 0).
Proof. reflexivity. Qed.

Example doctest_from_string_no_floor_part :
  Version.from_string "1.0.0-ALPHA1"
  = Raise (ValueError (Version.version_error "1.0.0-ALPHA1")).
Proof. reflexivity. Qed.

Example doctest_from_string_short :
  Version.from_string "1.0.0.1.1"
  = Raise (ValueError (Version.version_error "1.0.0.1.1")).
Proof. reflexivity. Qed.

Example doctest_from_string_dotted_zero_floor :
  Version.from_string "1.0.0.1.1.0.0.0"
  = Raise (ValueError "no blender min version requirement specified").
Proof. reflexivity. Qed.

Example doctest_from_semver_string_build :
  Version._from_semver_string "1.0.0-ALPHA1-2.93.0+234"
  = OK (V 1 0 0 ALPHA 1 2 93 0 234).
Proof. reflexivity. Qed.

Example doctest_from_semver_string_invalid :
  Version._from_semver_string "1.0.0-ALPHA1"
  = Raise (ValueError (Version.semver_error "1.0.0-ALPHA1")).
Proof. reflexivity. Qed.

(** ** The generated order is a strict total order on field tuples *)

Lemma tuple_ltb_irrefl (l : list intobj) : tuple_ltb l l = false.
Proof. induction l; simpl; [reflexivity|]. now rewrite N.eqb_refl. Qed.

Lemma tuple_ltb_trans (a : list intobj) : forall b c,
  tuple_ltb a b = true -> tuple_ltb b c = true -> tuple_ltb a c = true.
Proof.
  induction a as [|x a IH]; intros [|y b] [|z c]; simpl; try congruence.
  destruct (ival x =? ival y) eqn:Exy, (ival y =? ival z) eqn:Eyz;
    rewrite ?N.eqb_eq, ?N.eqb_neq in *.
  - rewrite Exy, Eyz, N.eqb_refl. apply IH.
  - rewrite Exy. apply N.eqb_neq in Eyz. now rewrite Eyz.
  - rewrite <- Eyz. apply N.eqb_neq in Exy. now rewrite Exy.
  - rewrite !N.ltb_lt. intros Hxy Hyz.
    destruct (ival x =? ival z) eqn:Exz;
      rewrite ?N.eqb_eq, ?N.eqb_neq, ?N.ltb_lt in *; lia.
Qed.

Lemma tuple_trichotomy (a : list intobj) : forall b,
  List.length a = List.length b ->
  tuple_ltb a b = true \/ tuple_eqb a b = true \/ tuple_ltb b a = true.
Proof.
  induction a as [|x a IH]; intros [|y b] Hlen; simpl in *; try discriminate.
  - auto.
  - rewrite (N.eqb_sym (ival y) (ival x)).
    destruct (ival x =? ival y) eqn:E.
    + simpl. apply IH. lia.
    + apply N.eqb_neq in E. rewrite !N.ltb_lt. lia.
Qed.

Lemma lt_irrefl (v : Version.t) : Version.__lt__ v v = false.
Proof. apply tuple_ltb_irrefl. Qed.

Lemma lt_trans (u v w : Version.t) :
  Version.__lt__ u v = true -> Version.__lt__ v w = true ->
  Version.__lt__ u w = true.
Proof. apply tuple_ltb_trans. Qed.

Lemma lt_total (v w : Version.t) :
  Version.__lt__ v w = true \/ Version.__eq__ v w = true
  \/ Version.__lt__ w v = true.
Proof. now apply tuple_trichotomy. Qed.

(** * Further properties of the module *)

(** ** ReleaseState *)

(** X1: [ReleaseState.bump] on a member never fails and returns the
    member whose value is the old value plus one, capped at 4; three
    bumps in a row reach STABLE from every member. *)
Theorem releasestate_bump_saturates (s : ReleaseState.t) :
  (exists s', ReleaseState.bump (Member s) = OK (Member s')
     /\ ReleaseState.value s' = N.min (ReleaseState.value s + 1) 4)
  /\ (s1 <- ReleaseState.bump (Member s) ;;
      s2 <- ReleaseState.bump s1 ;;
      ReleaseState.bump s2) = OK (Member STABLE).
Proof. destruct s; (split; [eexists; split|]); reflexivity. Qed.

(** X2: [from_value] inverts both views of a member: its integer value,
    the decimal digit of that value (as the dotted grammar captures it)
    and its name (as the semver grammar captures it). *)
Theorem from_value_inverts_value_and_name (s : ReleaseState.t) :
  ReleaseState.from_value (PyInt (ReleaseState.value s)) = OK s
  /\ ReleaseState.from_value (PyStr (str (ReleaseState.value s))) = OK s
  /\ ReleaseState.from_value (PyStr (ReleaseState.name s)) = OK s.
Proof. destruct s; repeat split. Qed.

(** X3: on an integer, [from_value] returns the member with that value
    when the integer is between 1 and 4, and otherwise raises
    [ValueError] with the message "<n> is not a valid ReleaseState". *)
Theorem from_value_int_range (n : N) :
  match ReleaseState.from_value (PyInt n) with
  | OK s => ReleaseState.value s = n
  | Raise e =>
      (n = 0 \/ 4 < n)
      /\ e = ValueError (str n ++ " is not a valid ReleaseState")
  end.
Proof.
  unfold ReleaseState.from_value, int_. cbn [bind].
  unfold ReleaseState.call.
  destruct (n =? 1) eqn:E1; [apply N.eqb_eq in E1; now subst|].
  destruct (n =? 2) eqn:E2; [apply N.eqb_eq in E2; now subst|].
  destruct (n =? 3) eqn:E3; [apply N.eqb_eq in E3; now subst|].
  destruct (n =? 4) eqn:E4; [apply N.eqb_eq in E4; now subst|].
  apply N.eqb_neq in E1, E2, E3, E4.
  split; [lia | reflexivity].
Qed.

Lemma uint_of_char_alpha (c : ascii) (o : option Decimal.uint) :
  is_alpha c = true -> uint_of_char c o = None.
Proof. destruct o; by_cases_on_char c. Qed.

Lemma int_of_letters (s : string) :
  all_in is_alpha s = true ->
  int_ (PyStr s)
  = Raise (ValueError
             ("invalid literal for int() with base 10: " ++ sq ++ s ++ sq)).
Proof.
  intros H. unfold int_. destruct s as [|c s]; [reflexivity|].
  simpl in H. apply andb_prop in H as [Hc _].
  cbn [NilEmpty.uint_of_string]. now rewrite (uint_of_char_alpha _ _ Hc).
Qed.

Lemma from_value_unknown_name_aux (s : string) :
  all_in is_alpha s = true ->
  ReleaseState.by_name s = None ->
  ReleaseState.from_value (PyStr s)
  = Raise (ValueError
             ("invalid literal for int() with base 10: " ++ sq ++ s ++ sq)).
Proof.
  intros Hall Hname. unfold ReleaseState.from_value. rewrite Hname.
  now rewrite int_of_letters.
Qed.

(** X4: names are matched exactly: a string of letters that is not one
    of "ALPHA", "BETA", "RC", "STABLE" (for instance a lower-case
    spelling) is passed to [int()], which raises [ValueError]. *)
Theorem from_value_unknown_name (s : string) :
  all_in is_alpha s = true ->
  ReleaseState.by_name s = None ->
  ReleaseState.from_value (PyStr s)
  = Raise (ValueError
             ("invalid literal for int() with base 10: " ++ sq ++ s ++ sq)).
Proof.
  intros Hall Hname. now apply from_value_unknown_name_aux.
Qed.

Lemma from_value_unknown_name_witness :
  ReleaseState.from_value (PyStr "alpha")
  = Raise (ValueError "invalid literal for int() with base 10: 'alpha'").
Proof. apply (from_value_unknown_name "alpha"); reflexivity. Defined.

(** ** bump: the remaining axes *)

(** X5: [bump(v, feature=True)] increments feature, resets patch to 0,
    state to ALPHA, increment to 1 and build to 0, and leaves release
    and the host floor as they were. *)
Theorem bump_feature (v : Version.t) :
  well_typed v -> has_floor v ->
  exists w, Version.bump v false true false false false None None = OK w
    /\ Version.release w = Version.release v
    /\ Version.feature w = Plain (ival (Version.feature v) + 1)
    /\ Version.patch w = Plain 0
    /\ Version.state w = Member ALPHA
    /\ Version.increment w = Plain 1
    /\ Version.brelease w = Version.brelease v
    /\ Version.bfeature w = Version.bfeature v
    /\ Version.bpatch w = Version.bpatch v
    /\ Version.build w = Plain 0.
Proof.
  intros [r f p s i br bf bp b] Hfl. bump_eval.
  rewrite validate_floor by exact Hfl.
  eexists; split; [reflexivity|]. cbn -[N.add]. repeat split.
Qed.

Lemma bump_feature_witness :
  exists w,
    Version.bump (V 1 4 2 RC 3 2 93 1 7) false true false false false
      None None = OK w
    /\ Version.release w = Plain 1
    /\ Version.feature w = Plain 5
    /\ Version.patch w = Plain 0
    /\ Version.state w = Member ALPHA
    /\ Version.increment w = Plain 1
    /\ Version.brelease w = Plain 2
    /\ Version.bfeature w = Plain 93
    /\ Version.bpatch w = Plain 1
    /\ Version.build w = Plain 0.
Proof.
  apply (bump_feature (V 1 4 2 RC 3 2 93 1 7)).
  - constructor.
  - vm_compute. discriminate.
Defined.

(** X6: [bump(v, increment=True)] adds one to the increment unless the
    state is STABLE, in which case the increment stays; in both cases
    the build is reset to 0 and every other field is unchanged. *)
Theorem bump_increment (v : Version.t) :
  well_typed v -> has_floor v ->
  exists w, Version.bump v false false false false true None None = OK w
    /\ Version.increment w =
       (if Version.is_stable v then Version.increment v
        else Plain (ival (Version.increment v) + 1))
    /\ Version.build w = Plain 0
    /\ Version.release w = Version.release v
    /\ Version.feature w = Version.feature v
    /\ Version.patch w = Version.patch v
    /\ Version.state w = Version.state v
    /\ Version.brelease w = Version.brelease v
    /\ Version.bfeature w = Version.bfeature v
    /\ Version.bpatch w = Version.bpatch v.
Proof.
  intros [r f p s i br bf bp b] Hfl. bump_eval.
  unfold Version.is_stable.
  destruct s; cbn -[N.add Version._validate_blender];
    rewrite validate_floor by exact Hfl;
    (eexists; split; [reflexivity|]); cbn -[N.add]; repeat split.
Qed.

Lemma bump_increment_witness :
  exists w,
    Version.bump (V 1 4 2 STABLE 3 2 93 1 7) false false false false true
      None None = OK w
    /\ Version.increment w = Plain 3
    /\ Version.build w = Plain 0
    /\ Version.release w = Plain 1
    /\ Version.feature w = Plain 4
    /\ Version.patch w = Plain 2
    /\ Version.state w = Member STABLE
    /\ Version.brelease w = Plain 2
    /\ Version.bfeature w = Plain 93
    /\ Version.bpatch w = Plain 1.
Proof.
  apply (bump_increment (V 1 4 2 STABLE 3 2 93 1 7)).
  - constructor.
  - vm_compute. discriminate.
Defined.

(** X7: the flags are ranked release, feature, patch, state, increment:
    the result of [bump] is that of the highest-ranked flag set, whatever
    the lower-ranked flags are. *)
Theorem bump_flag_precedence (v : Version.t) (fe pa st inc : bool)
    (bld : option N) (bl : option (list intobj)) :
  Version.bump v true fe pa st inc bld bl
    = Version.bump v true false false false false bld bl
  /\ Version.bump v false true pa st inc bld bl
    = Version.bump v false true false false false bld bl
  /\ Version.bump v false false true st inc bld bl
    = Version.bump v false false true false false bld bl
  /\ Version.bump v false false false true inc bld bl
    = Version.bump v false false false true false bld bl.
Proof. destruct fe, pa, st, inc; repeat split. Qed.

(** X9: with no flag and no argument, [bump] returns the version it was
    given. *)
Theorem bump_nothing (v : Version.t) :
  well_typed v -> has_floor v ->
  Version.bump v false false false false false None None = OK v.
Proof.
  intros [r f p s i br bf bp b] Hfl. bump_eval.
  now rewrite validate_floor by exact Hfl.
Qed.

Lemma bump_nothing_witness :
  Version.bump (V 1 4 2 BETA 3 2 93 1 7) false false false false false
    None None
  = OK (V 1 4 2 BETA 3 2 93 1 7).
Proof.
  apply (bump_nothing (V 1 4 2 BETA 3 2 93 1 7)).
  - constructor.
  - vm_compute. discriminate.
Defined.

(** Evaluation of [bump] for every setting of the five flags. *)
Ltac bump_cases rel fe pa st inc s :=
  destruct rel, fe, pa, st, inc;
  cbn -[N.add N.eqb ReleaseState.bump Version._validate_blender];
  rewrite ?bump_member;
  try destruct (ReleaseState.value s =? 4);
  cbn -[N.add N.eqb Version._validate_blender].

(** X8: a [blender] 3-tuple with a nonzero first component overwrites
    the host floor, whatever the flags and the build argument; the
    version bumped need not have a host floor of its own. *)
Theorem bump_blender_overrides (v : Version.t) (rel fe pa st inc : bool)
    (bld : option N) (a b c : intobj) :
  well_typed v -> ival a <> 0 ->
  exists w,
    Version.bump v rel fe pa st inc bld (Some [a; b; c]) = OK w
    /\ Version.brelease w = a
    /\ Version.bfeature w = b
    /\ Version.bpatch w = c.
Proof.
  intros [r f p s i br bf bp b0] Ha. bump_eval.
  destruct bld as [n|]; [destruct (n =? 0)|];
    bump_cases rel fe pa st inc s;
    rewrite validate_floor by exact Ha; cbn -[N.add]; eauto.
Qed.

Lemma bump_blender_overrides_witness :
  exists w,
    Version.bump (V 1 4 2 BETA 3 0 0 0 7) false false true false false
      (Some 9) (Some [Plain 3; Plain 6; Plain 1]) = OK w
    /\ Version.brelease w = Plain 3
    /\ Version.bfeature w = Plain 6
    /\ Version.bpatch w = Plain 1.
Proof.
  apply (bump_blender_overrides (V 1 4 2 BETA 3 0 0 0 7)).
  - constructor.
  - vm_compute. discriminate.
Defined.

(** X10: the [blender] argument is tested for truth and then indexed at
    0, 1 and 2: an empty tuple counts as not supplied, components past
    the third are ignored, and a tuple of one or two components raises
    [IndexError]. *)
Theorem bump_blender_shape (v : Version.t) (rel fe pa st inc : bool)
    (bld : option N) (a b c : intobj) (rest : list intobj) :
  Version.bump v rel fe pa st inc bld (Some [])
    = Version.bump v rel fe pa st inc bld None
  /\ Version.bump v rel fe pa st inc bld (Some (a :: b :: c :: rest))
    = Version.bump v rel fe pa st inc bld (Some [a; b; c])
  /\ (well_typed v ->
      (exists msg, Version.bump v rel fe pa st inc bld (Some [a])
                   = Raise (IndexError msg))
      /\ (exists msg, Version.bump v rel fe pa st inc bld (Some [a; b])
                      = Raise (IndexError msg))).
Proof.
  split; [reflexivity|]. split; [reflexivity|].
  intros [r f p s i br bf bp b0].
  split; bump_eval;
    (destruct bld as [n|]; [destruct (n =? 0)|]);
    bump_cases rel fe pa st inc s; eauto.
Qed.

Lemma bump_blender_shape_witness :
  (exists msg,
     Version.bump (V 1 4 2 BETA 3 2 93 0 7) false false false false false
       None (Some [Plain 3]) = Raise (IndexError msg))
  /\ (exists msg,
        Version.bump (V 1 4 2 BETA 3 2 93 0 7) false false false false false
          None (Some [Plain 3; Plain 6]) = Raise (IndexError msg)).
Proof.
  apply (proj2 (proj2 (bump_blender_shape (V 1 4 2 BETA 3 2 93 0 7)
           false false false false false None (Plain 3) (Plain 6) (Plain 0)
           []))).
  constructor.
Defined.

(** X11: on a version whose state is a plain integer (as [from_tuple]
    builds it from a tuple of integers) [to_tuple], [str], [to_semver]
    and [bump] all raise [AttributeError]: such a version can be
    compared but neither rendered nor bumped. *)
Theorem plain_state_is_unusable (r f p : intobj) (n : N)
    (i br bf bp b : intobj) (rel fe pa st inc : bool)
    (bld : option N) (bl : option (list intobj)) :
  let v := Version.mk r f p (Plain n) i br bf bp b in
  Version.to_tuple v
    = Raise (AttributeError "'int' object has no attribute 'value'")
  /\ Version.__str__ v
    = Raise (AttributeError "'int' object has no attribute 'value'")
  /\ Version.to_semver v
    = Raise (AttributeError "'int' object has no attribute 'name'")
  /\ Version.bump v rel fe pa st inc bld bl
    = Raise (AttributeError "'int' object has no attribute 'value'").
Proof. repeat split. Qed.

(** ** bump and the order *)

(** X14: a bump of release, feature or patch, and a bump of state or
    increment on a version that is not STABLE, returns a version that is
    strictly greater than the one bumped. *)
Theorem bump_increases (v : Version.t) (rel fe pa st inc : bool) :
  well_typed v -> has_floor v ->
  rel || fe || pa = true
  \/ (st || inc = true /\ Version.is_stable v = false) ->
  exists w,
    Version.bump v rel fe pa st inc None None = OK w
    /\ Version.__lt__ v w = true.
Proof.
  intros [r f p s i br bf bp b] Hfl Hflags.
  assert (Hsucc : forall n : N, (n =? n + 1) = false /\ (n <? n + 1) = true).
  { intros n. split; [apply N.eqb_neq | apply N.ltb_lt]; lia. }
  destruct (Hsucc r) as [Hr1 Hr2], (Hsucc f) as [Hf1 Hf2],
           (Hsucc p) as [Hp1 Hp2], (Hsucc i) as [Hi1 Hi2].
  bump_eval.
  destruct rel, fe, pa, st, inc;
    cbn in Hflags; destruct Hflags as [Hflags | [Hflags Hst]];
    try discriminate;
    destruct s; try (cbn in Hst; discriminate);
    cbn -[N.add Version._validate_blender];
    rewrite validate_floor by exact Hfl;
    (eexists; split; [reflexivity|]);
    unfold Version.__lt__; cbn -[N.add N.eqb N.ltb];
    rewrite ?N.eqb_refl, ?Hr1, ?Hf1, ?Hp1, ?Hi1; auto.
Qed.

Lemma bump_increases_witness :
  exists w,
    Version.bump (V 1 4 2 RC 3 2 93 1 7) false false false true false
      None None = OK w
    /\ Version.__lt__ (V 1 4 2 RC 3 2 93 1 7) w = true.
Proof.
  apply (bump_increases (V 1 4 2 RC 3 2 93 1 7)).
  - constructor.
  - vm_compute. discriminate.
  - right. split; reflexivity.
Defined.

(** ** Comparison *)

Lemma tuple_eqb_not_ltb (a : list intobj) : forall b,
  tuple_eqb a b = true -> tuple_ltb a b = false /\ tuple_ltb b a = false.
Proof.
  induction a as [|x a IH]; intros [|y b]; simpl; try discriminate; auto.
  intros H. apply andb_prop in H as [Hxy Hab].
  rewrite (N.eqb_sym (ival y)), Hxy. now apply IH.
Qed.

(** X12: the generated [<] is a strict total order on versions up to
    [==]: it is irreflexive and transitive, and of [v < w], [v == w],
    [w < v] exactly one holds. *)
Theorem version_order_strict_total (u v w : Version.t) :
  Version.__lt__ v v = false
  /\ (Version.__lt__ u v = true -> Version.__lt__ v w = true ->
      Version.__lt__ u w = true)
  /\ (Version.__lt__ v w = true \/ Version.__eq__ v w = true
      \/ Version.__lt__ w v = true)
  /\ (Version.__lt__ v w = true ->
      Version.__eq__ v w = false /\ Version.__lt__ w v = false)
  /\ (Version.__eq__ v w = true ->
      Version.__lt__ v w = false /\ Version.__lt__ w v = false).
Proof.
  split; [apply lt_irrefl|]. split; [apply lt_trans|].
  split; [apply lt_total|].
  assert (Heq : Version.__eq__ v w = true ->
                Version.__lt__ v w = false /\ Version.__lt__ w v = false)
    by apply tuple_eqb_not_ltb.
  split; [|exact Heq].
  intros Hlt. split.
  - destruct (Version.__eq__ v w) eqn:E; [|reflexivity].
    destruct (Heq eq_refl) as [H _]. congruence.
  - destruct (Version.__lt__ w v) eqn:E; [|reflexivity].
    pose proof (lt_trans _ _ _ Hlt E) as H. rewrite lt_irrefl in H.
    discriminate.
Qed.

Lemma version_order_strict_total_witness :
  Version.__lt__ (V 1 0 0 ALPHA 1 2 93 0 0) (V 1 0 1 ALPHA 1 2 93 0 0) = true
  /\ Version.__eq__ (V 1 0 0 BETA 1 2 93 0 0) (V 1 0 1 ALPHA 1 2 93 0 0) = false
  /\ Version.__lt__ (V 1 0 1 ALPHA 1 2 93 0 0) (V 1 0 0 BETA 1 2 93 0 0) = false.
Proof.
  destruct (version_order_strict_total (V 1 0 0 ALPHA 1 2 93 0 0)
              (V 1 0 0 BETA 1 2 93 0 0) (V 1 0 1 ALPHA 1 2 93 0 0))
    as (_ & Htrans & _ & Hlt & _).
  split; [apply Htrans; reflexivity|].
  apply Hlt. reflexivity.
Defined.

Lemma value_inj (s s' : ReleaseState.t) :
  ReleaseState.value s = ReleaseState.value s' -> s = s'.
Proof. destruct s, s'; simpl; congruence. Qed.

(** X13: on well-typed versions [==] is equality of the nine fields. *)
Theorem eq_is_field_equality (v w : Version.t) :
  well_typed v -> well_typed w ->
  (Version.__eq__ v w = true <-> v = w).
Proof.
  intros [r f p s i br bf bp b] [r' f' p' s' i' br' bf' bp' b'].
  split; [|intros ->; apply eq_refl_version].
  unfold Version.__eq__. cbn -[N.eqb]. intros H.
  repeat (apply andb_prop in H as [?%N.eqb_eq H]).
  subst. f_equal. now apply value_inj.
Qed.

Lemma eq_is_field_equality_witness :
  Version.__eq__ (V 1 0 0 ALPHA 1 2 93 0 0) (V 1 0 0 ALPHA 1 2 93 0 0) = true
  <-> V 1 0 0 ALPHA 1 2 93 0 0 = V 1 0 0 ALPHA 1 2 93 0 0.
Proof. apply eq_is_field_equality; constructor. Defined.

(** ** Tuples *)

(** X20: [from_tuple] succeeds exactly on the tuples of nine
    components; any other length makes the constructor call fail. *)
Theorem from_tuple_arity (t : list intobj) :
  (exists v, Version.from_tuple t = OK v) <-> List.length t = 9%nat.
Proof.
  split.
  - intros [v H].
    do 9 (destruct t as [|? t]; [discriminate|]).
    destruct t; [reflexivity | discriminate].
  - intros H.
    do 9 (destruct t as [|? t]; [discriminate|]).
    destruct t; [|discriminate]. eexists. reflexivity.
Qed.

(** X21: [to_tuple] returns the nine fields with the state reduced to
    its integer; feeding that tuple to [from_tuple] gives a version that
    compares equal to the original but whose state is a plain integer,
    so that [to_tuple] fails on it. *)
Theorem to_tuple_then_from_tuple (v : Version.t) :
  well_typed v ->
  exists t w,
    Version.to_tuple v = OK t
    /\ Version.from_tuple t = OK w
    /\ Version.__eq__ w v = true
    /\ Version.state w = Plain (ival (Version.state v))
    /\ Version.to_tuple w
       = Raise (AttributeError "'int' object has no attribute 'value'").
Proof.
  intros [r f p s i br bf bp b].
  do 2 eexists. split; [reflexivity|]. split; [reflexivity|].
  split; [|split; reflexivity].
  unfold Version.__eq__. cbn -[N.eqb]. now rewrite !N.eqb_refl.
Qed.

Lemma to_tuple_then_from_tuple_witness :
  exists t w,
    Version.to_tuple (V 1 0 0 RC 1 2 93 0 0) = OK t
    /\ Version.from_tuple t = OK w
    /\ Version.__eq__ w (V 1 0 0 RC 1 2 93 0 0) = true
    /\ Version.state w = Plain 3
    /\ Version.to_tuple w
       = Raise (AttributeError "'int' object has no attribute 'value'").
Proof. apply (to_tuple_then_from_tuple (V 1 0 0 RC 1 2 93 0 0)). constructor. Defined.

(** ** The state predicates *)

(** X19: on a well-typed version exactly one of [is_alpha], [is_beta],
    [is_rc], [is_stable] is true, the one named after its state. *)
Theorem state_predicates_partition (v : Version.t) :
  well_typed v ->
  exists s, Version.state v = Member s
    /\ Version.is_alpha v = (ReleaseState.value s =? 1)
    /\ Version.is_beta v = (ReleaseState.value s =? 2)
    /\ Version.is_rc v = (ReleaseState.value s =? 3)
    /\ Version.is_stable v = (ReleaseState.value s =? 4)
    /\ (if Version.is_alpha v then 1 else 0)
       + (if Version.is_beta v then 1 else 0)
       + (if Version.is_rc v then 1 else 0)
       + (if Version.is_stable v then 1 else 0) = 1.
Proof.
  intros [r f p s i br bf bp b]. exists s. destruct s; repeat split.
Qed.

Lemma state_predicates_partition_witness :
  exists s, Version.state (V 1 0 0 RC 1 2 93 0 0) = Member s
    /\ Version.is_alpha (V 1 0 0 RC 1 2 93 0 0) = (ReleaseState.value s =? 1)
    /\ Version.is_beta (V 1 0 0 RC 1 2 93 0 0) = (ReleaseState.value s =? 2)
    /\ Version.is_rc (V 1 0 0 RC 1 2 93 0 0) = (ReleaseState.value s =? 3)
    /\ Version.is_stable (V 1 0 0 RC 1 2 93 0 0) = (ReleaseState.value s =? 4)
    /\ (if Version.is_alpha (V 1 0 0 RC 1 2 93 0 0) then 1 else 0)
       + (if Version.is_beta (V 1 0 0 RC 1 2 93 0 0) then 1 else 0)
       + (if Version.is_rc (V 1 0 0 RC 1 2 93 0 0) then 1 else 0)
       + (if Version.is_stable (V 1 0 0 RC 1 2 93 0 0) then 1 else 0) = 1.
Proof. apply (state_predicates_partition (V 1 0 0 RC 1 2 93 0 0)). constructor. Defined.

(** ** Parsing: what is accepted *)

Ltac nstep :=
  lazymatch goal with
  | |- rmatch Eol ?pos (String ?c EmptyString) ?g ?k = _ =>
      change (rmatch Eol pos (String c EmptyString) g k)
        with (if Ascii.eqb c newline then k pos (String c EmptyString) g
              else None);
      cbv beta
  | |- _ => sstep
  end.

Lemma dotted_match_newline (r f p : N) (c : ascii) (i br bf bp b : N) :
  is_digit c = true ->
  re_match _VERSION_REGEXP
    (join "." [str r; str f; str p; String c EmptyString; str i;
               str br; str bf; str bp; str b] ++ String newline EmptyString)
  = Some [("b", str b); ("bp", str bp); ("bf", str bf); ("br", str br);
          ("i", str i); ("s", String c EmptyString);
          ("p", str p); ("f", str f); ("r", str r)].
Proof.
  intros Hc. unfold re_match. unfold_patterns.
  cbn [join append].
  repeat (rewrite append_assoc; cbn [append]).
  repeat nstep. reflexivity.
Qed.

(** X15: [$] also matches just before a final newline, so the dotted
    rendering of a version followed by one newline parses to that
    version. *)
Theorem from_string_accepts_final_newline (v : Version.t) :
  well_typed v -> has_floor v ->
  exists s,
    Version.__str__ v = OK s
    /\ Version.from_string (s ++ String newline EmptyString) = OK v.
Proof.
  intros [r f p s i br bf bp b] Hfl.
  eexists. split; [apply str_of_well_typed|].
  unfold Version.from_string.
  destruct (state_digit s) as (c & Hs & Hc).
  rewrite Hs, (dotted_match_newline _ _ _ _ _ _ _ _ _ Hc), <- Hs.
  decode.
  now rewrite validate_floor.
Qed.

Lemma from_string_accepts_final_newline_witness :
  exists s,
    Version.__str__ (V 1 0 0 ALPHA 1 2 93 0 0) = OK s
    /\ Version.from_string (s ++ String newline EmptyString)
       = OK (V 1 0 0 ALPHA 1 2 93 0 0).
Proof.
  apply (from_string_accepts_final_newline (V 1 0 0 ALPHA 1 2 93 0 0)).
  - constructor.
  - vm_compute. discriminate.
Defined.

(** ** Parsing: which error is raised *)

Lemma prefix_before_separator (q : ascii) (rest : string) (pat : string) :
  all_in (fun c => negb (Ascii.eqb c q)) pat = true ->
  forall s, prefix pat (s ++ String q rest) = prefix pat s.
Proof.
  induction pat as [|a pat IH]; intros Hpat s.
  - now destruct s.
  - simpl in Hpat. apply andb_prop in Hpat as [Ha Hpat].
    destruct s as [|c s]; simpl.
    + destruct (ascii_dec a q) as [->|]; [|reflexivity].
      rewrite Ascii.eqb_refl in Ha. discriminate.
    + destruct (ascii_dec a c); [now apply IH | reflexivity].
Qed.

Lemma contains_across_separator (q : ascii) (rest : string) (pat : string) :
  pat <> EmptyString ->
  all_in (fun c => negb (Ascii.eqb c q)) pat = true ->
  forall s,
    contains pat (s ++ String q rest) = contains pat s || contains pat rest.
Proof.
  intros Hne Hpat. induction s as [|c s IH].
  - change (EmptyString ++ String q rest) with (String q rest).
    cbn [contains].
    rewrite <- (prefix_before_separator q rest pat Hpat EmptyString).
    cbn [append].
    destruct pat; [congruence|]. cbn [prefix]. now rewrite orb_false_r.
  - cbn [append contains].
    rewrite IH.
    rewrite <- (prefix_before_separator q rest pat Hpat (String c s)).
    cbn [append]. now rewrite orb_assoc.
Qed.

Lemma blender_in_semver_error (s : string) :
  contains "blender" (Version.semver_error s) = contains "blender" s.
Proof.
  unfold Version.semver_error, dq. cbn [append].
  change (contains "blender" (String (ascii_of_nat 34) ?x))
    with (contains "blender" x).
  rewrite contains_across_separator by (discriminate || reflexivity).
  now rewrite orb_false_r.
Qed.

(** X16: when neither grammar matches, [from_string] raises the generic
    error naming both example encodings, unless the input itself
    contains "blender": the semver error message quotes the input, the
    handler takes it for the host-floor error and lets it through. *)
Theorem from_string_no_grammar_matches (s : string) :
  re_match _VERSION_REGEXP s = None ->
  re_match _SEMVER_REGEXP s = None ->
  Version.from_string s
  = Raise (ValueError (if contains "blender" s
                       then Version.semver_error s
                       else Version.version_error s)).
Proof.
  intros Hd Hs. unfold Version.from_string, Version._from_semver_string.
  rewrite Hd, Hs, blender_in_semver_error.
  now destruct (contains "blender" s).
Qed.

Lemma from_string_no_grammar_matches_witness :
  Version.from_string "blender-2.93"
  = Raise (ValueError (Version.semver_error "blender-2.93")).
Proof. apply (from_string_no_grammar_matches "blender-2.93"); reflexivity. Defined.

Lemma from_value_bad_digit (c : ascii) :
  is_digit c = true ->
  ReleaseState.by_name (String c EmptyString) = None
  /\ (ReleaseState.from_value (PyStr (String c EmptyString))
      = Raise (ValueError (String c EmptyString ++ " is not a valid ReleaseState"))
      \/ exists s, ReleaseState.from_value (PyStr (String c EmptyString)) = OK s
                   /\ str (ReleaseState.value s) = String c EmptyString).
Proof.
  intros H. split; [by_cases_on_char c|].
  destruct c as [[] [] [] [] [] [] [] []];
    try (vm_compute in H; discriminate);
    first [ left; reflexivity
          | right; exists ALPHA; split; reflexivity
          | right; exists BETA; split; reflexivity
          | right; exists RC; split; reflexivity
          | right; exists STABLE; split; reflexivity ].
Qed.

(** X17: in the dotted form a state digit outside 1..4 is reported as
    such ("<digit> is not a valid ReleaseState"): the error of the
    enumeration reaches the caller unchanged, and it comes before the
    host-floor check. *)
Theorem from_string_dotted_bad_state (r f p : N) (c : ascii)
    (i br bf bp b : N) :
  is_digit c = true ->
  ~ In c ["1"; "2"; "3"; "4"]%char ->
  Version.from_string
    (join "." [str r; str f; str p; String c EmptyString; str i;
               str br; str bf; str bp; str b])
  = Raise (ValueError (String c EmptyString ++ " is not a valid ReleaseState")).
Proof.
  intros Hc Hbad. unfold Version.from_string.
  rewrite (dotted_match _ _ _ _ _ _ _ _ _ Hc).
  destruct (from_value_bad_digit c Hc) as [_ [Hraise | (s & _ & Hs)]].
  2:{ exfalso. apply Hbad. destruct s; injection Hs as <-; simpl; auto. }
  unfold Version._from_dict.
  cbn [group String.eqb Ascii.eqb Bool.eqb].
  rewrite !int_str, Hraise. reflexivity.
Qed.

Lemma from_string_dotted_bad_state_witness :
  Version.from_string "1.0.0.7.1.0.93.0.0"
  = Raise (ValueError "7 is not a valid ReleaseState").
Proof.
  apply (from_string_dotted_bad_state 1 0 0 "7" 1 0 93 0 0).
  - reflexivity.
  - simpl. intros [H|[H|[H|[H|[]]]]]; discriminate.
Defined.

Lemma blender_in_int_error (nm : string) :
  contains "blender"
    ("invalid literal for int() with base 10: " ++ sq ++ nm ++ sq)
  = contains "blender" nm.
Proof.
  unfold sq.
  change ("invalid literal for int() with base 10: "
            ++ String (ascii_of_nat 39) EmptyString
            ++ nm ++ String (ascii_of_nat 39) EmptyString)
    with ("invalid literal for int() with base 10: "
            ++ String (ascii_of_nat 39)
                 (nm ++ String (ascii_of_nat 39) EmptyString)).
  rewrite !contains_across_separator by (discriminate || reflexivity).
  cbn [orb]. now rewrite orb_false_r.
Qed.

(** X18: in the semver form a state name that is not one of the four
    names makes [from_string] raise the generic error; but when that
    name contains "blender", the [int()] error that quotes it is let
    through instead. *)
Theorem from_string_semver_bad_state (r f p : N) (nm : string)
    (oi : option N) (br bf bp : N) (ob : option N) :
  all_in is_alpha nm = true -> nm <> EmptyString ->
  ReleaseState.by_name nm = None ->
  let text := semver_text r f p nm oi br bf bp ob in
  Version.from_string text
  = Raise (ValueError
      (if contains "blender" nm
       then "invalid literal for int() with base 10: " ++ sq ++ nm ++ sq
       else Version.version_error text)).
Proof.
  intros Hall Hne Hname text. subst text.
  unfold Version.from_string, Version._from_semver_string.
  rewrite semver_not_dotted, (semver_match _ _ _ _ _ _ _ _ _ Hall Hne).
  assert (Hd : Version._from_dict (semver_groups r f p nm oi br bf bp ob)
               = Raise (ValueError
                   ("invalid literal for int() with base 10: "
                      ++ sq ++ nm ++ sq))).
  { unfold semver_groups, Version._from_dict.
    destruct oi, ob; cbn [List.app group String.eqb Ascii.eqb Bool.eqb];
      rewrite !int_str, (from_value_unknown_name_aux nm Hall Hname);
      reflexivity. }
  rewrite Hd. cbn [bind]. rewrite blender_in_int_error.
  now destruct (contains "blender" nm).
Qed.

Lemma from_string_semver_bad_state_witness :
  Version.from_string "1.0.0-alpha1-2.93.0"
  = Raise (ValueError (Version.version_error "1.0.0-alpha1-2.93.0")).
Proof.
  apply (from_string_semver_bad_state 1 0 0 "alpha" (Some 1) 2 93 0 None);
    (reflexivity || discriminate).
Defined.

(** ** What parsing and bumping return *)

Lemma from_dict_well_typed (d : groups) (v : Version.t) :
  Version._from_dict d = OK v -> well_typed v.
Proof.
  unfold Version._from_dict. intros H.
  repeat (apply bind_OK in H as (? & _ & H)).
  injection H as <-. constructor.
Qed.

(** X22: a version returned by [from_string] is well typed and has a
    host floor: plain integers in the numeric fields, a member of
    [ReleaseState] as state, and a nonzero [brelease]. *)
Theorem from_string_returns_well_typed (s : string) (v : Version.t) :
  Version.from_string s = OK v -> well_typed v /\ has_floor v.
Proof.
  intros H. split; [|now apply from_string_floor in H].
  revert H. unfold Version.from_string, Version._from_semver_string.
  destruct (re_match _VERSION_REGEXP s) as [d|].
  - intros H. apply validated_OK in H as [H _].
    now apply from_dict_well_typed in H.
  - destruct (re_match _SEMVER_REGEXP s) as [d|].
    + destruct (Version._from_dict d) as [w|e] eqn:E; cbn [bind].
      * destruct (Version._validate_blender w) as [[]|e]; cbn [bind].
        -- intros [= <-]. now apply from_dict_well_typed in E.
        -- destruct e; try discriminate.
           destruct (contains "blender" msg); discriminate.
      * destruct e; try discriminate.
        destruct (contains "blender" msg); discriminate.
    + destruct (contains "blender" (Version.semver_error s)); discriminate.
Qed.

Lemma from_string_returns_well_typed_witness :
  well_typed (V 1 0 0 ALPHA 1 2 93 0 234)
  /\ has_floor (V 1 0 0 ALPHA 1 2 93 0 234).
Proof.
  apply (from_string_returns_well_typed "1.0.0-ALPHA1-2.93.0+234").
  reflexivity.
Defined.

(** X23: [bump] keeps versions well typed: bumping a well-typed version,
    with [blender] absent or a triple of plain integers, returns a
    well-typed version with a host floor whenever it returns. *)
Theorem bump_returns_well_typed (v : Version.t) (rel fe pa st inc : bool)
    (bld : option N) (bl : option (list intobj)) (w : Version.t) :
  well_typed v ->
  bl = None \/ (exists a b c, bl = Some [Plain a; Plain b; Plain c]) ->
  Version.bump v rel fe pa st inc bld bl = OK w ->
  well_typed w /\ has_floor w.
Proof.
  intros Hv Hbl H. split; [|now apply bump_floor in H].
  revert H. destruct Hv as [r f p s i br bf bp b0].
  destruct Hbl as [-> | (a & b & c & ->)]; bump_eval;
    (destruct bld as [n|]; [destruct (n =? 0)|]);
    bump_cases rel fe pa st inc s;
    intros H; apply bind_OK in H as ([] & _ & [= <-]);
    exact (well_typed_V _ _ _ _ _ _ _ _ _).
Qed.

Lemma bump_returns_well_typed_witness :
  well_typed (V 1 5 0 ALPHA 1 3 0 0 0) /\ has_floor (V 1 5 0 ALPHA 1 3 0 0 0).
Proof.
  apply (bump_returns_well_typed (V 1 4 2 RC 3 2 93 1 7)
           false true false false false None
           (Some [Plain 3; Plain 0; Plain 0])).
  - constructor.
  - right. do 3 eexists. reflexivity.
  - reflexivity.
Defined.

(** ** Renderings *)

Lemma or_zero_increment_shown (s : ReleaseState.t) (i : N) :
  increment_shown s (or_zero (increment_shown s i)) = increment_shown s i.
Proof. unfold increment_shown. now destruct (_ =? _). Qed.

(** X24: parsing a semver rendering and rendering the result again gives
    the same text: the parsed version is the original one, except that a
    STABLE version comes back with increment 0, which the rendering does
    not show. *)
Theorem to_semver_is_stable_under_reparsing (v : Version.t) :
  well_typed v -> has_floor v ->
  exists text w,
    Version.to_semver v = OK text
    /\ Version.from_string text = OK w
    /\ Version.to_semver w = OK text
    /\ Version.increment w =
       (if Version.is_stable v then Plain 0 else Version.increment v)
    /\ Version.release w = Version.release v
    /\ Version.feature w = Version.feature v
    /\ Version.patch w = Version.patch v
    /\ Version.state w = Version.state v
    /\ Version.brelease w = Version.brelease v
    /\ Version.bfeature w = Version.bfeature v
    /\ Version.bpatch w = Version.bpatch v
    /\ Version.build w = Version.build v.
Proof.
  intros [r f p s i br bf bp b] Hfl.
  assert (Hbr : br <> 0) by exact Hfl.
  do 2 eexists. split; [apply to_semver_of_well_typed|].
  split; [rewrite from_string_semver by assumption; reflexivity|].
  split.
  - rewrite to_semver_of_well_typed.
    now rewrite or_zero_increment_shown, !or_zero_build.
  - rewrite or_zero_build. unfold Version.is_stable, increment_shown.
    cbn [Version.state Version.increment V ival Version.release
         Version.feature Version.patch Version.brelease Version.bfeature
         Version.bpatch Version.build].
    destruct (ReleaseState.value s =? ReleaseState.value STABLE);
      repeat split.
Qed.

Lemma to_semver_is_stable_under_reparsing_witness :
  exists text w,
    Version.to_semver (V 1 0 0 STABLE 5 2 93 0 7) = OK text
    /\ Version.from_string text = OK w
    /\ Version.to_semver w = OK text
    /\ Version.increment w = Plain 0
    /\ Version.release w = Plain 1
    /\ Version.feature w = Plain 0
    /\ Version.patch w = Plain 0
    /\ Version.state w = Member STABLE
    /\ Version.brelease w = Plain 2
    /\ Version.bfeature w = Plain 93
    /\ Version.bpatch w = Plain 0
    /\ Version.build w = Plain 7.
Proof.
  apply (to_semver_is_stable_under_reparsing (V 1 0 0 STABLE 5 2 93 0 7)).
  - constructor.
  - vm_compute. discriminate.
Defined.

Lemma dotted_decodes r f p s i br bf bp b :
  exists d,
    re_match _VERSION_REGEXP
      (join "." [str r; str f; str p; str (ReleaseState.value s); str i;
                 str br; str bf; str bp; str b]) = Some d
    /\ Version._from_dict d = OK (V r f p s i br bf bp b).
Proof.
  destruct (state_digit s) as (c & Hs & Hc).
  eexists. split.
  - rewrite Hs. apply dotted_match. exact Hc.
  - rewrite <- Hs. decode. reflexivity.
Qed.

(** X25: the dotted rendering determines the version: two well-typed
    versions with the same [str] are equal. *)
Theorem str_is_injective (v w : Version.t) (s : string) :
  well_typed v -> well_typed w ->
  Version.__str__ v = OK s -> Version.__str__ w = OK s -> v = w.
Proof.
  intros [r f p st i br bf bp b] [r' f' p' st' i' br' bf' bp' b'].
  rewrite !str_of_well_typed. intros [= <-] [= Heq].
  destruct (dotted_decodes r f p st i br bf bp b) as (d & Hm & Hd).
  destruct (dotted_decodes r' f' p' st' i' br' bf' bp' b') as (d' & Hm' & Hd').
  cbn [join append] in Hm, Hm'. congruence.
Qed.

Lemma str_is_injective_witness :
  V 1 0 0 ALPHA 1 2 93 0 0 = V 1 0 0 ALPHA 1 2 93 0 0.
Proof.
  apply (str_is_injective _ _ "1.0.0.1.1.2.93.0.0");
    (constructor || reflexivity).
Defined.
